(** * steamodd: [steam/user.py], the Steam user profile reader

    A shallow embedding of the [profile] class of [steam/user.py] and the
    verification of its specification.

    - Python values are the inductive [value]; a [dict] with string keys
      is a [gmap string value].
    - The instance attribute [_summary_object] is an [option value]:
      [None] is "attribute not set", which is what makes Python raise
      [AttributeError].
    - Exceptions are the constructors of [exn]; a call either returns
      ([Ok]) or raises ([Raise]).
    - The collaborators of the module that live outside it ([urllib2],
      [json], [pickle], [time], the integer coercion of [sqlite3] and the
      settings of the [steam] package) are the fields of [Env].
    - The id64 cache file is a [table] of rows; every access to it and
      every HTTP request is recorded in a log of [event]s. *)

From stdpp Require Import gmap strings list.
From Stdlib Require Import ZArith Lia Ascii String.

#[local] Open Scope string_scope.
#[local] Open Scope Z_scope.

(** ** Python values *)

Module Py.

(** [time.struct_time]: the nine integer fields. *)
Record struct_time := StructTime {
  tm_year : Z; tm_mon : Z; tm_mday : Z;
  tm_hour : Z; tm_min : Z; tm_sec : Z;
  tm_wday : Z; tm_yday : Z; tm_isdst : Z }.

(** The values the module handles: what [json.loads] produces, plus the
    two string types of Python 2 ([str] and [unicode], the characters of
    the latter restricted to Latin-1).  Floating point numbers are not
    modelled. *)
#[warnings="-register-all"]
Inductive value : Type :=
| VNone
| VBool (b : bool)
| VInt (n : Z)
| VStr (s : string)
| VUnicode (s : string)
| VList (l : list value)
| VDict (d : gmap string value).

Inductive exn : Type :=
| ProfileError (msg : string)
| AttributeError
| KeyError
| IndexError
| TypeError
| ValueError
| UnicodeError
| URLError
| ProgrammingError
| IntegrityError.

Inductive result (A : Type) : Type :=
| Ok (a : A)
| Raise (e : exn).
Arguments Ok {A} a.
Arguments Raise {A} e.

Definition returns {A} (r : result A) : Prop := exists a, r = Ok a.

(** [bool(v)] *)
Definition truthy (v : value) : bool :=
  match v with
  | VNone => false
  | VBool b => b
  | VInt n => negb (n =? 0)
  | VStr s | VUnicode s => negb (String.eqb s "")
  | VList l => negb (bool_decide (l = []))
  | VDict d => negb (bool_decide (d = ∅))
  end.

(** [v == n] for an integer literal [n]: [True == 1] and [False == 0]. *)
Definition eq_int (v : value) (n : Z) : bool :=
  match v with
  | VInt m => m =? n
  | VBool b => (if b then 1 else 0) =? n
  | _ => false
  end.

(** [v == s] for an ASCII string literal [s]. *)
Definition eq_str (v : value) (s : string) : bool :=
  match v with
  | VStr t | VUnicode t => String.eqb t s
  | _ => false
  end.

(** *** Strings *)

Definition code (c : ascii) : Z := Z.of_nat (nat_of_ascii c).

Fixpoint all_chars (p : ascii -> bool) (s : string) : bool :=
  match s with
  | EmptyString => true
  | String c s' => p c && all_chars p s'
  end.

Definition is_ascii_char (c : ascii) : bool := code c <? 128.
Definition is_ascii : string -> bool := all_chars is_ascii_char.

(** The characters ['0'] to ['9']. *)
Definition is_digit_char (c : ascii) : bool :=
  (48 <=? code c) && (code c <=? 57).

(** In a [unicode] object the superscripts U+00B2, U+00B3 and U+00B9
    are digits as well. *)
Definition is_udigit_char (c : ascii) : bool :=
  is_digit_char c
  || (code c =? 178) || (code c =? 179) || (code c =? 185).

(** [s.isdigit()]: every character is a digit and there is at least one. *)
Definition str_isdigit (s : string) : bool :=
  negb (String.eqb s "") && all_chars is_digit_char s.
Definition unicode_isdigit (s : string) : bool :=
  negb (String.eqb s "") && all_chars is_udigit_char s.

Definition len (s : string) : Z := Z.of_nat (String.length s).

(** [s.find(needle)]: the lowest index of an occurrence, or [-1]. *)
Fixpoint find_from (needle s : string) (i : Z) : Z :=
  if String.prefix needle s then i
  else match s with
       | EmptyString => -1
       | String _ s' => find_from needle s' (i + 1)
       end.
Definition find (s needle : string) : Z := find_from needle s 0.

(** A slice bound: negative bounds count from the end, and the result is
    clamped to [0 .. len s]. *)
Definition clamp (s : string) (i : Z) : Z :=
  let j := if i <? 0 then i + len s else i in
  Z.max 0 (Z.min j (len s)).

(** [s[a:b]] *)
Definition slice (s : string) (a b : Z) : string :=
  let lo := clamp s a in
  let hi := clamp s b in
  String.substring (Z.to_nat lo) (Z.to_nat (hi - lo)) s.

(** [s.encode(...)] on a [str]: Python 2 first decodes the byte string
    as ASCII, which fails on any byte above 127; an ASCII string encodes
    to itself. *)
Definition str_encode (s : string) : result string :=
  if is_ascii s then Ok s else Raise UnicodeError.

(** Decimal notation of an integer, as [str(n)] prints it. *)
Definition digit_of (d : Z) : ascii := ascii_of_nat (Z.to_nat (48 + d)).

Fixpoint digits_fuel (fuel : nat) (n : Z) (acc : string) : string :=
  match fuel with
  | O => acc
  | S fuel' =>
      let acc' := String (digit_of (n mod 10)) acc in
      if n <? 10 then acc' else digits_fuel fuel' (n / 10) acc'
  end.

Definition str_of_nonneg (n : Z) : string :=
  digits_fuel (S (Z.to_nat (Z.log2 n))) n "".

Definition str_of_int (n : Z) : string :=
  if n <? 0 then String "-" (str_of_nonneg (- n)) else str_of_nonneg n.

End Py.

Import Py.

(** [template.format(arg)] for templates whose only replacement field is
    [{0:s}]: every occurrence is replaced by [arg]. *)
Fixpoint format0 (skip : nat) (template arg : string) : string :=
  match template with
  | EmptyString => EmptyString
  | String c rest =>
      match skip with
      | S k => format0 k rest arg
      | O =>
          if String.prefix "{0:s}" template
          then String.append arg (format0 4 rest arg)
          else String c (format0 0 rest arg)
      end
  end.

(** ** The id64 cache: table [cache (sid TEXT, id64 INTEGER PRIMARY KEY)] *)

Module Cache.

Record row := Row { sid : option string; id64 : Z }.

(** The rows in the order a table scan visits them. *)
Definition table := list row.

(** The PRIMARY KEY constraint: no two rows share an [id64]. *)
Definition pk_unique (t : table) : Prop := NoDup (map id64 t).

(** [SELECT id64 FROM cache WHERE sid=?] followed by [fetchone()] *)
Fixpoint select_id64 (s : string) (t : table) : option Z :=
  match t with
  | [] => None
  | r :: t' =>
      if bool_decide (sid r = Some s) then Some (id64 r)
      else select_id64 s t'
  end.

Definition has_id (n : Z) (t : table) : bool :=
  existsb (fun r => id64 r =? n) t.

(** [INSERT OR IGNORE INTO cache (id64) VALUES (?)]: the new row has a
    NULL [sid]; a row with the same key makes the statement a no-op. *)
Definition insert_or_ignore (n : Z) (t : table) : table :=
  if has_id n t then t else (t ++ [Row None n])%list.

(** [UPDATE cache SET sid=? WHERE id64=?] *)
Definition update_sid (s : string) (n : Z) (t : table) : table :=
  map (fun r => if id64 r =? n then Row (Some s) (id64 r) else r) t.

(** The rows whose key is [n]. *)
Definition rows_of (n : Z) (t : table) : list row :=
  List.filter (fun r => id64 r =? n) t.

(** Lines 63 and 65 on the table: insert the key, then attach [s]. *)
Definition store (s : string) (n : Z) (t : table) : table :=
  update_sid s n (insert_or_ignore n t).

End Cache.

(** ** Collaborators *)

Record Env := {
  (** [steam.get_api_key()] *)
  api_key : string;
  (** [urllib2.urlopen(url).read()]: the body, or the error raised *)
  urlopen : string -> result string;
  (** [json.loads] *)
  json_loads : string -> result value;
  (** [pickle.loads] *)
  pickle_loads : string -> result value;
  (** the conversion SQLite applies to a text bound to an INTEGER
      column; [None] is "datatype mismatch" *)
  sql_integer : string -> option Z;
  (** [str(v)] for a list or a dict *)
  repr : value -> string;
  (** [time.localtime(secs)] and the clock it reads when [secs] is
      [None] *)
  localtime : Z -> result struct_time;
  now : Z }.

(** ** Instances, the world around them, and effects *)

(** What a method call does to the outside world, in order. *)
Inductive event : Type :=
| DbConnect
| DbSelect (sid : string)
| DbInsert (id64 : string)
| DbUpdate (sid id64 : string)
| DbCommit
| HttpGet (url : string).

(** The attributes of a [profile] instance.  [_summary_object] is
    [None] until the first assignment to it. *)
Record profile := Profile {
  _old_profile_url : string;
  _profile_url : string;
  _summary_object : option value }.

Record state := State {
  self : profile;
  db : Cache.table;
  log : list event }.

Definition M (A : Type) : Type := state -> result A * state.

Definition ret {A} (a : A) : M A := fun st => (Ok a, st).
Definition raise {A} (e : exn) : M A := fun st => (Raise e, st).
Definition lift {A} (r : result A) : M A := fun st => (r, st).
Definition bind {A B} (m : M A) (k : A -> M B) : M B :=
  fun st =>
    match m st with
    | (Ok a, st') => k a st'
    | (Raise e, st') => (Raise e, st')
    end.

Notation "'let!' x ':=' m 'in' k" := (bind m (fun x => k))
  (at level 10, x name, m at level 100, k at level 200,
   format "'[v' 'let!'  x  ':='  m  'in' '/' k ']'").
Notation "m ';;;' k" := (bind m (fun _ => k))
  (at level 100, k at level 200, right associativity).

Definition emit (e : event) : M unit :=
  fun st => (Ok tt, State (self st) (db st) (log st ++ [e])%list).
Definition get_self : M profile := fun st => (Ok (self st), st).
Definition get_db : M Cache.table := fun st => (Ok (db st), st).
Definition put_db (t : Cache.table) : M unit :=
  fun st => (Ok tt, State (self st) t (log st)).
(** [self._summary_object = v] *)
Definition set_summary_object (v : value) : M unit :=
  fun st =>
    (Ok tt,
     State (Profile (_old_profile_url (self st)) (_profile_url (self st))
                    (Some v))
           (db st) (log st)).

(** The same for code that only computes a [result]. *)
Definition rbind {A B} (r : result A) (k : A -> result B) : result B :=
  match r with
  | Ok a => k a
  | Raise e => Raise e
  end.

Notation "'let?' x ':=' r 'in' k" := (rbind r (fun x => k))
  (at level 10, x name, r at level 100, k at level 200,
   format "'[v' 'let?'  x  ':='  r  'in' '/' k ']'").

(** ** Operations on values *)

(** [v[k]] for a string key [k] *)
Definition getitem (v : value) (k : string) : result value :=
  match v with
  | VDict d =>
      match d !! k with
      | Some x => Ok x
      | None => Raise KeyError
      end
  | _ => Raise TypeError
  end.

(** [v[0]] *)
Definition getitem0 (v : value) : result value :=
  match v with
  | VList l =>
      match l with
      | x :: _ => Ok x
      | [] => Raise IndexError
      end
  | VStr s =>
      match s with
      | String c _ => Ok (VStr (String c EmptyString))
      | EmptyString => Raise IndexError
      end
  | VUnicode s =>
      match s with
      | String c _ => Ok (VUnicode (String c EmptyString))
      | EmptyString => Raise IndexError
      end
  | VDict _ => Raise KeyError
  | _ => Raise TypeError
  end.

(** [v.get(k, dflt)] *)
Definition dict_get (v : value) (k : string) (dflt : value) : result value :=
  match v with
  | VDict d => Ok (default dflt (d !! k))
  | _ => Raise AttributeError
  end.

(** [k in v] for a string [k] *)
Definition contains (v : value) (k : string) : result bool :=
  match v with
  | VDict d => Ok (bool_decide (is_Some (d !! k)))
  | VList l => Ok (existsb (fun x => eq_str x k) l)
  | VStr s | VUnicode s => Ok (negb (find s k =? -1))
  | _ => Raise TypeError
  end.

Section WithEnv.

Variable env : Env.

(** [str(v)] *)
Definition py_str (v : value) : result string :=
  match v with
  | VNone => Ok "None"
  | VBool b => Ok (if b then "True" else "False")
  | VInt n => Ok (str_of_int n)
  | VStr s => Ok s
  | VUnicode s => if is_ascii s then Ok s else Raise UnicodeError
  | VList _ | VDict _ => Ok (repr env v)
  end.

(** [time.localtime(v)] *)
Definition py_localtime (v : value) : result struct_time :=
  match v with
  | VInt n => localtime env n
  | VBool b => localtime env (if b then 1 else 0)
  | VNone => localtime env (now env)
  | _ => Raise TypeError
  end.

(** ** [class profile] *)

(** [urllib2.urlopen(url).read()] *)
Definition http_get (url : string) : M string :=
  emit (HttpGet url) ;;; lift (urlopen env url).

(** A [str] bound to a statement parameter must be 7-bit; a [unicode]
    object is bound as it is. *)
Definition bind_param (v : value) : result string :=
  match v with
  | VStr s => if is_ascii s then Ok s else Raise ProgrammingError
  | VUnicode s => Ok s
  | _ => Raise ProgrammingError
  end.

(** Lines 63 to 66: the two statements that persist a mapping, and the
    commit. *)
Definition cache_store (sid : value) (prof : string) : M unit :=
  let! id := lift (bind_param (VStr prof)) in
  emit (DbInsert id) ;;;
  match sql_integer env id with
  | None => raise IntegrityError
  | Some n =>
      let! t := get_db in
      put_db (Cache.insert_or_ignore n t) ;;;
      let! s := lift (bind_param sid) in
      emit (DbUpdate s id) ;;;
      let! t := get_db in
      put_db (Cache.update_sid s n t) ;;;
      emit DbCommit
  end.

Definition get_id64_from_sid (sid : value) : M value :=
  let! isdigit :=
    match sid with
    | VStr s => ret (str_isdigit s)
    | VUnicode s => ret (unicode_isdigit s)
    | _ => raise AttributeError
    end in
  if isdigit : bool then ret sid
  else
    emit DbConnect ;;;
    let! s := lift (bind_param sid) in
    emit (DbSelect s) ;;;
    let! t := get_db in
    match Cache.select_id64 s t with
    | Some n => ret (VInt n)
    | None =>
        let! me := get_self in
        let! arg := lift (py_str sid) in
        let! prof := http_get (format0 0 (_old_profile_url me) arg) in
        if match sid with VStr _ => true | _ => false end
           && negb (find prof "<steamID64>" =? -1)
        then
          let prof := slice prof (find prof "<steamID64>" + 11)
                                 (find prof "</steamID64>") in
          cache_store sid prof ;;;
          ret (VStr prof)
        else ret VNone
    end.

Definition get_summary (sid : value) : M value :=
  let! s := lift (py_str sid) in
  let! s := lift (str_encode s) in
  let! id64 := get_id64_from_sid (VStr s) in
  let id64 := if truthy id64 then id64 else sid in
  let! me := get_self in
  let! tail := lift (py_str id64) in
  let! body := http_get (String.append (_profile_url me) tail) in
  let! body := lift (str_encode body) in
  let! doc := lift (json_loads env body) in
  let! response := lift (getitem doc "response") in
  let! players := lift (getitem response "players") in
  let! player := lift (getitem players "player") in
  let! summary := lift (getitem0 player) in
  set_summary_object summary ;;;
  if negb (truthy summary) then raise (ProfileError "Profile not found")
  else ret summary.

(** [summary] is the text the file object yields. *)
Definition load_summary_file (summary : string) (pickled : bool) : M unit :=
  if pickled then
    let! v := lift (pickle_loads env summary) in
    set_summary_object v
  else
    let! v := lift (json_loads env summary) in
    set_summary_object v.

(** Reading the attribute [self._summary_object]. *)
Definition summary_attr (p : profile) : result value :=
  match _summary_object p with
  | Some v => Ok v
  | None => Raise AttributeError
  end.

Definition get_summary_object (p : profile) : result value :=
  match summary_attr p with
  | Raise AttributeError => Raise (ProfileError "No summary")
  | r => r
  end.

Definition get_id64 (p : profile) : result value :=
  let? so := summary_attr p in getitem so "steamid".

Definition get_persona (p : profile) : result value :=
  let? so := summary_attr p in getitem so "personaname".

Definition get_profile_url (p : profile) : result value :=
  let? so := summary_attr p in getitem so "profileurl".

Definition AVATAR_SMALL : string := "avatar".
Definition AVATAR_MEDIUM : string := "avatarmedium".
Definition AVATAR_LARGE : string := "avatarfull".

Definition get_avatar_url (p : profile) (size : string) : result value :=
  let? so := summary_attr p in getitem so size.

Definition get_status (p : profile) : result value :=
  let? so := summary_attr p in
  let? status := getitem so "personastate" in
  if eq_int status 0 then Ok (VStr "offline")
  else if eq_int status 1 then Ok (VStr "online")
  else if eq_int status 2 then Ok (VStr "busy")
  else if eq_int status 3 then Ok (VStr "away")
  else if eq_int status 4 then Ok (VStr "snooze")
  else Ok status.

Definition get_visibility (p : profile) : result value :=
  let? so := summary_attr p in
  let? vis := getitem so "communityvisibilitystate" in
  if eq_int vis 1 then Ok (VStr "private")
  else if eq_int vis 2 then Ok (VStr "friends")
  else if eq_int vis 3 then Ok (VStr "public")
  else Ok vis.

Definition is_configured (p : profile) : result value :=
  let? so := summary_attr p in dict_get so "profilestate" (VBool false).

Definition get_last_online (p : profile) : result struct_time :=
  let? so := summary_attr p in
  let? t := getitem so "lastlogoff" in
  py_localtime t.

Definition is_comment_enabled (p : profile) : result value :=
  let? so := summary_attr p in dict_get so "commentpermission" (VBool false).

Definition get_real_name (p : profile) : result value :=
  let? so := summary_attr p in dict_get so "realname" VNone.

Definition get_primary_group (p : profile) : result value :=
  let? so := summary_attr p in dict_get so "primaryclanid" VNone.

(** [None] is the Python [None] the method returns when it falls off
    its end. *)
Definition get_creation_date (p : profile) : result (option struct_time) :=
  let? so := summary_attr p in
  let? timestamp := dict_get so "timecreated" VNone in
  if truthy timestamp then
    let? t := py_localtime timestamp in Ok (Some t)
  else Ok None.

(** One [if key in self._summary_object: ret[name] = ...] step. *)
Definition copy_key (p : profile) (key name : string)
    (ret : gmap string value) : result (gmap string value) :=
  let? so := summary_attr p in
  let? present := contains so key in
  if present : bool then
    let? so := summary_attr p in
    let? x := getitem so key in
    Ok (<[name := x]> ret)
  else Ok ret.

Definition get_current_game (p : profile) : result value :=
  let ret : gmap string value := ∅ in
  let? vis := get_visibility p in
  if eq_str vis "public" then
    let? ret := copy_key p "gameid" "id" ret in
    let? ret := copy_key p "gameserverip" "server" ret in
    let? ret := copy_key p "gameextrainfo" "extra" ret in
    Ok (VDict ret)
  else Ok VNone.

Definition get_location (p : profile) : result value :=
  let ret : gmap string value := ∅ in
  let? vis := get_visibility p in
  if eq_str vis "public" then
    let? ret := copy_key p "loccountrycode" "country" ret in
    let? ret := copy_key p "locstatecode" "state" ret in
    Ok (VDict ret)
  else Ok VNone.

(** [_create_id64_db]: on the cache file the table exists in, [CREATE
    TABLE IF NOT EXISTS] changes nothing. *)
Definition _create_id64_db : M unit :=
  emit DbConnect ;;; emit DbCommit.

(** [profile(sid)]: [sid] is [VNone] when the argument is left out. *)
Definition __init__ (sid : value) : M unit :=
  (fun st =>
     (Ok tt,
      State (Profile "http://steamcommunity.com/id/{0:s}?xml=1"
               (String.append
                  "http://api.steampowered.com/ISteamUser/GetPlayerSummaries/v0001/?key="
                  (String.append (api_key env) "&steamids="))
               None)
            (db st) (log st))) ;;;
  _create_id64_db ;;;
  if truthy sid then get_summary sid ;;; ret tt else ret tt.

(** [profile(sid)] on the cache file [t], the log so far being [l]:
    the new instance has no attribute before [__init__] runs. *)
Definition construct (sid : value) (t : Cache.table) (l : list event)
    : result unit * state :=
  __init__ sid (State (Profile "" "" None) t l).

(** *** The read accessors, as one family *)

Inductive accessor : Type :=
| GetSummaryObject | GetId64 | GetPersona | GetProfileUrl
| GetAvatarUrl (size : string)
| GetStatus | GetVisibility | IsConfigured | GetLastOnline
| IsCommentEnabled | GetRealName | GetPrimaryGroup | GetCreationDate
| GetCurrentGame | GetLocation.

(** What an accessor hands back: a value, or a [struct_time]. *)
Inductive retval : Type :=
| RValue (v : value)
| RTime (t : struct_time).

Definition call (a : accessor) (p : profile) : result retval :=
  match a with
  | GetSummaryObject => let? v := get_summary_object p in Ok (RValue v)
  | GetId64 => let? v := get_id64 p in Ok (RValue v)
  | GetPersona => let? v := get_persona p in Ok (RValue v)
  | GetProfileUrl => let? v := get_profile_url p in Ok (RValue v)
  | GetAvatarUrl size => let? v := get_avatar_url p size in Ok (RValue v)
  | GetStatus => let? v := get_status p in Ok (RValue v)
  | GetVisibility => let? v := get_visibility p in Ok (RValue v)
  | IsConfigured => let? v := is_configured p in Ok (RValue v)
  | GetLastOnline => let? t := get_last_online p in Ok (RTime t)
  | IsCommentEnabled => let? v := is_comment_enabled p in Ok (RValue v)
  | GetRealName => let? v := get_real_name p in Ok (RValue v)
  | GetPrimaryGroup => let? v := get_primary_group p in Ok (RValue v)
  | GetCreationDate =>
      let? o := get_creation_date p in
      Ok (match o with Some t => RTime t | None => RValue VNone end)
  | GetCurrentGame => let? v := get_current_game p in Ok (RValue v)
  | GetLocation => let? v := get_location p in Ok (RValue v)
  end.

End WithEnv.

(** ** A concrete environment

    A fake of the collaborators, in the manner of a test double: one
    vanity name, one account, a decimal reader for the INTEGER column.
    JSON texts are written with ['] for the double quote. *)

Module Fixture.

Definition dq (s : string) : string :=
  string_of_list_ascii
    (map (fun c => if Ascii.eqb c "'" then ascii_of_nat 34 else c)
         (list_ascii_of_string s)).

Fixpoint dec_from (acc : Z) (s : string) : option Z :=
  match s with
  | EmptyString => Some acc
  | String c s' =>
      if is_digit_char c then dec_from (10 * acc + (code c - 48)) s'
      else None
  end.

(** A text is an integer when it is a non-empty run of decimal digits. *)
Definition dec_integer (s : string) : option Z :=
  if String.eqb s "" then None else dec_from 0 s.

Definition robin_id : Z := 76561197960287930.

Definition robin : value :=
  VDict (<["steamid" := VUnicode "76561197960287930"]>
        (<["personaname" := VUnicode "Robin"]>
        (<["personastate" := VInt 1]>
        (<["communityvisibilitystate" := VInt 3]>
        (<["lastlogoff" := VInt 1000000000]>
        (<["gameid" := VUnicode "440"]>
        (<["loccountrycode" := VUnicode "US"]> ∅))))))).

Definition players (l : list value) : value :=
  VDict {[ "response" :=
    VDict {[ "players" := VDict {[ "player" := VList l ]} ]} ]}.

Definition robin_json : string :=
  dq "{'steamid':'76561197960287930','personaname':'Robin','personastate':1,'communityvisibilitystate':3,'lastlogoff':1000000000,'gameid':'440','loccountrycode':'US'}".

Definition found_body : string :=
  String.append (dq "{'response':{'players':{'player':[")
    (String.append robin_json "]}}}").
Definition not_found_body : string :=
  dq "{'response':{'players':{'player':[]}}}".
Definition blank_body : string :=
  dq "{'response':{'players':{'player':[{}]}}}".
Definition robin_pickle : string := "robin.pickle".

Definition key_url (id : string) : string :=
  String.append
    "http://api.steampowered.com/ISteamUser/GetPlayerSummaries/v0001/?key=KEY&steamids="
    id.

Definition web (url : string) : result string :=
  if String.eqb url "http://steamcommunity.com/id/robin?xml=1"
  then Ok "<profile><steamID64>76561197960287930</steamID64></profile>"
  else if String.eqb url "http://steamcommunity.com/id/nobody?xml=1"
  then Ok "<response><error>not found</error></response>"
  else if String.eqb url (key_url "76561197960287930") then Ok found_body
  else if String.eqb url (key_url "nobody") then Ok not_found_body
  else if String.eqb url (key_url "0") then Ok blank_body
  else Raise URLError.

Definition loads (s : string) : result value :=
  if String.eqb s found_body then Ok (players [robin])
  else if String.eqb s not_found_body then Ok (players [])
  else if String.eqb s blank_body then Ok (players [VDict ∅])
  else if String.eqb s robin_json then Ok robin
  else Raise ValueError.

Definition unpickle (s : string) : result value :=
  if String.eqb s robin_pickle then Ok robin else Raise ValueError.

(** Seconds since the epoch, read as UTC time of day on day one. *)
Definition clock (n : Z) : result struct_time :=
  if n <? 0 then Raise ValueError
  else Ok (StructTime 1970 1 1 ((n / 3600) mod 24) ((n / 60) mod 60)
             (n mod 60) 3 1 0).

Definition env : Env := {|
  api_key := "KEY";
  urlopen := web;
  json_loads := loads;
  pickle_loads := unpickle;
  sql_integer := dec_integer;
  repr := fun _ => "<object>";
  localtime := clock;
  now := 0 |}.

(** A friends-only profile that is in a game. *)
Definition shy : value :=
  VDict (<["personaname" := VUnicode "Shy"]>
        (<["personastate" := VInt 5]>
        (<["communityvisibilitystate" := VInt 2]>
        (<["gameid" := VUnicode "440"]>
        (<["gameextrainfo" := VUnicode "Team Fortress 2"]>
        (<["loccountrycode" := VUnicode "SE"]> ∅)))))).

Definition holding (v : value) : profile := Profile "" "" (Some v).

End Fixture.

(** * Vocabulary of the specification *)

(** ** Status and visibility codes *)

(** The integer a value compares equal to, if any. *)
Definition as_int (v : value) : option Z :=
  match v with
  | VInt n => Some n
  | VBool b => Some (if b then 1 else 0)
  | _ => None
  end.

(** The two code tables, as the specification words them. *)
Definition status_name (n : Z) : option string :=
  if n =? 0 then Some "offline"
  else if n =? 1 then Some "online"
  else if n =? 2 then Some "busy"
  else if n =? 3 then Some "away"
  else if n =? 4 then Some "snooze"
  else None.

Definition visibility_name (n : Z) : option string :=
  if n =? 1 then Some "private"
  else if n =? 2 then Some "friends"
  else if n =? 3 then Some "public"
  else None.

(** A value is named by a table, or passes through unchanged. *)
Definition decode (table : Z -> option string) (v : value) : value :=
  match as_int v with
  | Some n =>
      match table n with
      | Some name => VStr name
      | None => v
      end
  | None => v
  end.

(** ** Numeric identifiers *)

Definition decimal_digits : list ascii :=
  ["0"; "1"; "2"; "3"; "4"; "5"; "6"; "7"; "8"; "9"]%char.

(** ** Fetching *)

(** Lines 80 to 86 of [get_summary]: the request for [id64], the walk
    down to the first player, the assignment and the final test. *)
Definition request_summary (env : Env) (id64 : value) : M value :=
  let! me := get_self in
  let! tail := lift (py_str env id64) in
  let! body := http_get env (String.append (_profile_url me) tail) in
  let! body := lift (str_encode body) in
  let! doc := lift (json_loads env body) in
  let! response := lift (getitem doc "response") in
  let! players := lift (getitem response "players") in
  let! player := lift (getitem players "player") in
  let! summary := lift (getitem0 player) in
  set_summary_object summary ;;;
  if negb (truthy summary) then raise (ProfileError "Profile not found")
  else ret summary.

(** [response.players.player] of a decoded body. *)
Definition player_list (doc : value) : result value :=
  let? response := getitem doc "response" in
  let? players := getitem response "players" in
  getitem players "player".

(** ** Histories of calls *)

(** The method calls a client can make on an instance. *)
Inductive op : Type :=
| Fetch (sid : value)
| Load (summary : string) (pickled : bool)
| Resolve (sid : value)
| Read (a : accessor).

Definition perform (env : Env) (o : op) : M retval :=
  match o with
  | Fetch sid => let! v := get_summary env sid in ret (RValue v)
  | Load summary pickled =>
      load_summary_file env summary pickled ;;; ret (RValue VNone)
  | Resolve sid => let! v := get_id64_from_sid env sid in ret (RValue v)
  | Read a => let! me := get_self in lift (call env a me)
  end.

(** A history is a sequence of calls, each made in the environment of
    its moment; a call that raises leaves the state it had reached. *)
Fixpoint history (h : list (Env * op)) (st : state) : state :=
  match h with
  | [] => st
  | (env, o) :: h' => history h' (snd (perform env o st))
  end.

Definition held (st : state) : option value := _summary_object (self st).


(** ** Cache observations *)

(** The URLs requested in a log. *)
Definition requests (l : list event) : list string :=
  omap (fun e => match e with HttpGet url => Some url | _ => None end) l.

(** A network on which every request fails. *)
Definition offline (env : Env) : Env := {|
  api_key := api_key env;
  urlopen := fun _ => Raise URLError;
  json_loads := json_loads env;
  pickle_loads := pickle_loads env;
  sql_integer := sql_integer env;
  repr := repr env;
  localtime := localtime env;
  now := now env |}.

(** ** Serialized summaries *)

(** [doc] is a serialization of [v] in the format the [pickled] flag
    selects: the matching reader of the library decodes it to [v]. *)
Definition serialization_of
    (env : Env) (pickled : bool) (doc : string) (v : value) : Prop :=
  (if pickled then pickle_loads env doc else json_loads env doc) = Ok v.

(** ** The legacy document and the URLs *)

Definition open_tag : string := "<steamID64>".
Definition close_tag : string := "</steamID64>".

(** A legacy answer that carries [id] between the two tags. *)
Definition legacy_document (pre id post : string) : string :=
  String.append pre
    (String.append open_tag
       (String.append id (String.append close_tag post))).

(** The two URL attributes, as [__init__] assigns them. *)
Definition legacy_template : string :=
  "http://steamcommunity.com/id/{0:s}?xml=1".

Definition legacy_url (sid : string) : string :=
  String.append "http://steamcommunity.com/id/" (String.append sid "?xml=1").

Definition summary_base (key : string) : string :=
  String.append
    "http://api.steampowered.com/ISteamUser/GetPlayerSummaries/v0001/?key="
    (String.append key "&steamids=").

(** ** Names in the cache *)

(** How many rows carry the name [s]. *)
Definition sid_count (s : string) (t : Cache.table) : nat :=
  List.length
    (List.filter (fun r => bool_decide (Cache.sid r = Some s)) t).

(** No name is attached to two rows. *)
Definition sid_unique (t : Cache.table) : Prop :=
  forall s, (sid_count s t <= 1)%nat.

(** ** Accessors by the key they read *)

(** The key an accessor subscripts, when it subscripts one. *)
Definition required_key (a : accessor) : option string :=
  match a with
  | GetId64 => Some "steamid"
  | GetPersona => Some "personaname"
  | GetProfileUrl => Some "profileurl"
  | GetAvatarUrl size => Some size
  | GetStatus => Some "personastate"
  | GetVisibility | GetCurrentGame | GetLocation =>
      Some "communityvisibilitystate"
  | GetLastOnline => Some "lastlogoff"
  | _ => None
  end.

(** The accessors that hand the subscripted value back untouched. *)
Definition is_projection (a : accessor) : bool :=
  match a with
  | GetId64 | GetPersona | GetProfileUrl | GetAvatarUrl _ => true
  | _ => false
  end.

(** The key an accessor reads with [.get], and the default it asks for. *)
Definition optional_key (a : accessor) : option (string * value) :=
  match a with
  | IsConfigured => Some ("profilestate", VBool false)
  | IsCommentEnabled => Some ("commentpermission", VBool false)
  | GetRealName => Some ("realname", VNone)
  | GetPrimaryGroup => Some ("primaryclanid", VNone)
  | GetCreationDate => Some ("timecreated", VNone)
  | _ => None
  end.

Definition is_dict (v : value) : bool :=
  match v with
  | VDict _ => true
  | _ => false
  end.

(** One call's effect on the cache: nothing, or the store of a name
    the lookup had missed. *)
Definition cache_step (t t' : Cache.table) : Prop :=
  t' = t \/
  exists s n, Cache.select_id64 s t = None /\ t' = Cache.store s n t.

(** [env] on another network. *)
Definition with_web (env : Env) (web : string -> result string) : Env := {|
  api_key := api_key env;
  urlopen := web;
  json_loads := json_loads env;
  pickle_loads := pickle_loads env;
  sql_integer := sql_integer env;
  repr := repr env;
  localtime := localtime env;
  now := now env |}.

(** * Proofs *)

(** Destruct the results a monadic computation branches on. *)
Ltac case_results :=
  repeat match goal with
    | |- context [match ?r with Ok _ => _ | Raise _ => _ end] =>
        destruct r; simpl
    end.

(** Decide an integer test that the context settles by arithmetic. *)
Ltac case_eqb :=
  match goal with
  | |- context [?a =? ?b] => destruct (Z.eqb_spec a b); [lia|]
  end.

Lemma eq_int_as_int v n :
  eq_int v n = match as_int v with Some m => m =? n | None => false end.
Proof. destruct v as [| [] | | | | |]; reflexivity. Qed.

Lemma eq_str_true v s :
  eq_str v s = true <-> v = VStr s \/ v = VUnicode s.
Proof.
  destruct v; simpl; try (split; [discriminate | intros [|]; discriminate]).
  - rewrite String.eqb_eq. split; [intros ->; by left | intros [[= ->]|]; done].
  - rewrite String.eqb_eq. split; [intros ->; by right | intros [|[= ->]]; done].
Qed.

Lemma loaded_dict_attr p d :
  _summary_object p = Some (VDict d) -> summary_attr p = Ok (VDict d).
Proof. unfold summary_attr. by intros ->. Qed.

Lemma get_status_decode p d v :
  _summary_object p = Some (VDict d) ->
  d !! "personastate" = Some v ->
  get_status p = Ok (decode status_name v).
Proof.
  intros Hso Hv. unfold get_status.
  rewrite (loaded_dict_attr _ _ Hso). simpl. rewrite Hv. simpl.
  rewrite !eq_int_as_int. unfold decode, status_name.
  destruct (as_int v) as [n|]; [|reflexivity].
  repeat (destruct (n =? _); [reflexivity|]). reflexivity.
Qed.

Lemma get_visibility_decode p d v :
  _summary_object p = Some (VDict d) ->
  d !! "communityvisibilitystate" = Some v ->
  get_visibility p = Ok (decode visibility_name v).
Proof.
  intros Hso Hv. unfold get_visibility.
  rewrite (loaded_dict_attr _ _ Hso). simpl. rewrite Hv. simpl.
  rewrite !eq_int_as_int. unfold decode, visibility_name.
  destruct (as_int v) as [n|]; [|reflexivity].
  repeat (destruct (n =? _); [reflexivity|]). reflexivity.
Qed.

(** C8: on every held summary, [get_status] turns [personastate] 0, 1,
    2, 3, 4 into "offline", "online", "busy", "away", "snooze", and
    hands every other value (5, say) back as it is. *)
Theorem get_status_mapping (p : profile) (d : gmap string value) (v : value) :
  _summary_object p = Some (VDict d) ->
  d !! "personastate" = Some v ->
  (v = VInt 0 -> get_status p = Ok (VStr "offline")) /\
  (v = VInt 1 -> get_status p = Ok (VStr "online")) /\
  (v = VInt 2 -> get_status p = Ok (VStr "busy")) /\
  (v = VInt 3 -> get_status p = Ok (VStr "away")) /\
  (v = VInt 4 -> get_status p = Ok (VStr "snooze")) /\
  (v = VInt 5 -> get_status p = Ok (VInt 5)) /\
  (forall n, as_int v = Some n -> n < 0 \/ 4 < n -> get_status p = Ok v) /\
  (as_int v = None -> get_status p = Ok v) /\
  get_status p = Ok (decode status_name v).
Proof.
  intros Hso Hv. rewrite (get_status_decode p d v Hso Hv).
  repeat split; try (intros ->; reflexivity).
  - intros n Hn Hout. unfold decode, status_name. rewrite Hn.
    repeat case_eqb. reflexivity.
  - intros Hn. unfold decode. by rewrite Hn.
Qed.

Lemma get_status_mapping_witness :
  get_status (Fixture.holding Fixture.robin) = Ok (VStr "online") /\
  get_status (Fixture.holding Fixture.shy) = Ok (VInt 5).
Proof.
  split.
  - refine (proj1 (proj2 (get_status_mapping
              (Fixture.holding Fixture.robin) _ (VInt 1) _ _)) _);
      reflexivity.
  - refine (proj1 (proj2 (proj2 (proj2 (proj2 (proj2 (get_status_mapping
              (Fixture.holding Fixture.shy) _ (VInt 5) _ _)))))) _);
      reflexivity.
Defined.

(** C7: [get_visibility] turns [communityvisibilitystate] 1, 2, 3 into
    "private", "friends", "public" and hands any other value back; and
    whenever the visibility it reports is not "public", both
    [get_current_game] and [get_location] return [None], whatever game
    and location fields the summary holds. *)
Theorem visibility_gates_game_and_location
    (p : profile) (d : gmap string value) (v : value) :
  _summary_object p = Some (VDict d) ->
  d !! "communityvisibilitystate" = Some v ->
  (v = VInt 1 -> get_visibility p = Ok (VStr "private")) /\
  (v = VInt 2 -> get_visibility p = Ok (VStr "friends")) /\
  (v = VInt 3 -> get_visibility p = Ok (VStr "public")) /\
  (forall n, as_int v = Some n -> n < 1 \/ 3 < n -> get_visibility p = Ok v) /\
  (as_int v = None -> get_visibility p = Ok v) /\
  (get_visibility p <> Ok (VStr "public") ->
   get_visibility p <> Ok (VUnicode "public") ->
   get_current_game p = Ok VNone /\ get_location p = Ok VNone).
Proof.
  intros Hso Hv. pose proof (get_visibility_decode p d v Hso Hv) as Hvis.
  repeat (split; [intros ->; exact Hvis|]).
  split; [|split].
  - intros n Hn Hout. rewrite Hvis. unfold decode, visibility_name.
    rewrite Hn. repeat case_eqb. reflexivity.
  - intros Hn. rewrite Hvis. unfold decode. by rewrite Hn.
  - intros Hs Hu.
    assert (eq_str (decode visibility_name v) "public" = false) as E.
    { destruct (eq_str _ "public") eqn:E; [|reflexivity].
      apply eq_str_true in E as [E|E]; congruence. }
    unfold get_current_game, get_location. rewrite Hvis. simpl.
    by rewrite E.
Qed.

Lemma visibility_gates_game_and_location_witness :
  get_current_game (Fixture.holding Fixture.shy) = Ok VNone /\
  get_location (Fixture.holding Fixture.shy) = Ok VNone.
Proof.
  refine (proj2 (proj2 (proj2 (proj2 (proj2
            (visibility_gates_game_and_location
               (Fixture.holding Fixture.shy) _ (VInt 2) _ _))))) _ _);
    [reflexivity | reflexivity | vm_compute; discriminate
    | vm_compute; discriminate].
Defined.

(** ** Before the first summary *)

(** C1, as the code has it: on an instance made by [profile()] and not
    loaded since, [get_summary_object] raises [ProfileError] with the
    message "No summary", every other accessor raises the
    [AttributeError] of the unset attribute, and so none of them returns
    a value. *)
Theorem fresh_instance_accessors
    (env : Env) (t : Cache.table) (l : list event) (a : accessor) :
  let p := self (snd (construct env VNone t l)) in
  _summary_object p = None /\
  ~ returns (call env a p) /\
  call env a p =
    Raise (match a with
           | GetSummaryObject => ProfileError "No summary"
           | _ => AttributeError
           end).
Proof.
  cbn. split; [reflexivity|].
  split; [intros [r Hr]|]; destruct a; cbn in *; done.
Qed.

(** C1, as the specification has it, fails: [get_persona] on a fresh
    instance does not raise the "No summary" error. *)
Lemma fresh_get_persona_is_attribute_error :
  ~ (forall a : accessor,
       call Fixture.env a (self (snd (construct Fixture.env VNone [] [])))
       = Raise (ProfileError "No summary")).
Proof. intros H. specialize (H GetPersona). vm_compute in H. discriminate. Qed.

(** ** Numeric identifiers *)


Lemma decimal_digit_is_digit c :
  c ∈ decimal_digits -> is_digit_char c = true.
Proof.
  unfold decimal_digits. rewrite !elem_of_cons, elem_of_nil.
  intros H. repeat (destruct H as [->|H]; [reflexivity|]). done.
Qed.

Lemma all_digits_isdigit s :
  s <> "" ->
  Forall (fun c => c ∈ decimal_digits) (list_ascii_of_string s) ->
  str_isdigit s = true /\ unicode_isdigit s = true.
Proof.
  intros Hne Hall. unfold str_isdigit, unicode_isdigit.
  assert (String.eqb s "" = false) as -> by by apply String.eqb_neq.
  simpl. clear Hne. induction s as [|c s IH]; [done|].
  simpl in Hall. apply Forall_cons in Hall as [Hc Hs].
  apply decimal_digit_is_digit in Hc. destruct (IH Hs) as [IH1 IH2].
  simpl. rewrite IH1, IH2. unfold is_udigit_char. rewrite Hc. done.
Qed.

(** C4: when [sid] is a non-empty string of decimal digits,
    [get_id64_from_sid] returns it unchanged and leaves the world as it
    was: no row read or written, no request sent, nothing logged. *)
Theorem digits_returned_unchanged (env : Env) (st : state) (s : string) :
  s <> "" ->
  Forall (fun c => c ∈ decimal_digits) (list_ascii_of_string s) ->
  get_id64_from_sid env (VStr s) st = (Ok (VStr s), st) /\
  get_id64_from_sid env (VUnicode s) st = (Ok (VUnicode s), st).
Proof.
  intros Hne Hall. destruct (all_digits_isdigit s Hne Hall) as [Hs Hu].
  unfold get_id64_from_sid, bind, ret. rewrite Hs, Hu. done.
Qed.

Lemma digits_returned_unchanged_witness :
  let st := State (Fixture.holding Fixture.robin) [] [] in
  get_id64_from_sid Fixture.env (VStr "76561197960287930") st
  = (Ok (VStr "76561197960287930"), st).
Proof.
  refine (proj1 (digits_returned_unchanged Fixture.env _
                   "76561197960287930" _ _)).
  - discriminate.
  - simpl. repeat constructor.
Defined.

(** ** Fetching a summary *)


Lemma get_summary_resolved env sid s0 s st id st' :
  py_str env sid = Ok s0 ->
  str_encode s0 = Ok s ->
  get_id64_from_sid env (VStr s) st = (Ok id, st') ->
  get_summary env sid st
  = request_summary env (if truthy id then id else sid) st'.
Proof.
  intros Hstr Henc Hid. unfold get_summary, request_summary, bind, lift.
  by rewrite Hstr, Henc, Hid.
Qed.


(** The request is the one thing [request_summary] adds to the log, and
    the cache is not touched. *)
Lemma request_summary_log env id64 tail st :
  py_str env id64 = Ok tail ->
  let out := request_summary env id64 st in
  log (snd out)
  = (log st ++ [HttpGet (String.append (_profile_url (self st)) tail)])%list
  /\ db (snd out) = db st.
Proof.
  intros Htail. unfold request_summary, bind, lift, get_self, http_get, emit.
  rewrite Htail. simpl. unfold bind, lift, set_summary_object, raise, ret.
  simpl. case_results; try done.
  all: match goal with |- context [if ?b then _ else _] => destruct b end;
    done.
Qed.


(** C6: when resolving [str(sid)] returns [None], [get_summary] raises
    nothing on that account: it goes on exactly as it would with [sid]
    itself for the id64, and the request it sends is for the summary
    URL ending in [str(sid)]. *)
Theorem unresolved_sid_sent_verbatim
    (env : Env) (st st' : state) (sid : value) (s0 s : string) :
  py_str env sid = Ok s0 ->
  str_encode s0 = Ok s ->
  get_id64_from_sid env (VStr s) st = (Ok VNone, st') ->
  get_summary env sid st = request_summary env sid st' /\
  log (snd (get_summary env sid st))
  = (log st' ++ [HttpGet (String.append (_profile_url (self st')) s0)])%list.
Proof.
  intros Hstr Henc Hid.
  rewrite (get_summary_resolved env sid s0 s st VNone st' Hstr Henc Hid).
  simpl. split; [reflexivity|].
  apply (request_summary_log env sid s0 st' Hstr).
Qed.

Lemma unresolved_sid_sent_verbatim_witness :
  let st := snd (construct Fixture.env VNone [] []) in
  log (snd (get_summary Fixture.env (VStr "nobody") st))
  = [DbConnect; DbCommit; DbConnect; DbSelect "nobody";
     HttpGet "http://steamcommunity.com/id/nobody?xml=1";
     HttpGet (Fixture.key_url "nobody")].
Proof.
  intros st.
  refine (proj2 (unresolved_sid_sent_verbatim Fixture.env st
                   (snd (get_id64_from_sid Fixture.env (VStr "nobody") st))
                   (VStr "nobody") "nobody" "nobody" _ _ _));
    reflexivity.
Defined.

(** C2, the absent element: when the summary endpoint answers with an
    empty [player] list, [get_summary] raises [IndexError], not
    [ProfileError], and holds no summary afterwards. *)
Theorem empty_player_list_raises_index_error :
  let st := snd (construct Fixture.env VNone [] []) in
  let out := get_summary Fixture.env (VStr "nobody") st in
  player_list (Fixture.players []) = Ok (VList []) /\
  In (HttpGet (Fixture.key_url "nobody")) (log (snd out)) /\
  fst out = Raise IndexError /\
  _summary_object (self (snd out)) = None.
Proof. vm_compute. intuition. Qed.

(** ** The held summary over the life of an instance *)


Lemma cache_store_self env sid prof st :
  self (snd (cache_store env sid prof st)) = self st.
Proof.
  unfold cache_store, bind, lift, emit, get_db, put_db, raise. simpl.
  destruct (is_ascii prof); simpl; [|done].
  destruct (sql_integer env prof); simpl; [|done].
  destruct (bind_param sid); done.
Qed.

Lemma get_id64_from_sid_self env sid st :
  self (snd (get_id64_from_sid env sid st)) = self st.
Proof.
  unfold get_id64_from_sid, bind, lift, emit, get_db, get_self, ret, raise,
    http_get.
  destruct sid; simpl; try done.
  all: match goal with |- context [if ?b then _ else _] => destruct b end;
    simpl; try done.
  - destruct (is_ascii s); simpl; [|done].
    destruct (Cache.select_id64 s (db st)); simpl; [done|].
    unfold bind, lift, emit. simpl.
    destruct (urlopen env _) as [prof|]; simpl; [|done].
    destruct (negb _); simpl; [|done].
    match goal with
    | |- context [cache_store env ?a ?b ?c] =>
        pose proof (cache_store_self env a b c) as Hself;
        destruct (cache_store env a b c) as [[[]|] st']
    end; simpl in *; done.
  - destruct (Cache.select_id64 s (db st)); simpl; [done|].
    destruct (is_ascii s); simpl; [|done].
    unfold bind, lift, emit. simpl.
    destruct (urlopen env _) as [prof|]; done.
Qed.

(** [request_summary] either assigns the first player and answers by
    its truth value, or raises with the attribute untouched. *)
Lemma request_summary_held env id64 st :
  let out := request_summary env id64 st in
  (exists v, held (snd out) = Some v /\
             fst out = if truthy v then Ok v
                       else Raise (ProfileError "Profile not found"))
  \/ (held (snd out) = held st /\ exists e, fst out = Raise e).
Proof.
  unfold request_summary, bind, lift, get_self, http_get, emit.
  destruct (py_str env id64) as [tail|e]; simpl; [|right; eauto].
  unfold bind, lift, set_summary_object, raise, ret. simpl.
  case_results; try (right; split; [reflexivity | eauto]).
  left.
  match goal with
  | |- context [truthy ?v] => exists v; destruct (truthy v)
  end; done.
Qed.

Lemma get_summary_held env sid st :
  let out := get_summary env sid st in
  (exists v, held (snd out) = Some v /\
             fst out = if truthy v then Ok v
                       else Raise (ProfileError "Profile not found"))
  \/ (held (snd out) = held st /\ exists e, fst out = Raise e).
Proof.
  destruct (py_str env sid) as [s0|e] eqn:Hstr.
  2:{ right. unfold get_summary, bind, lift. rewrite Hstr. eauto. }
  destruct (str_encode s0) as [s|e] eqn:Henc.
  2:{ right. unfold get_summary, bind, lift. rewrite Hstr, Henc. eauto. }
  pose proof (get_id64_from_sid_self env (VStr s) st) as Hself.
  destruct (get_id64_from_sid env (VStr s) st) as [[id|e] st'] eqn:Hid.
  - rewrite (get_summary_resolved env sid s0 s st id st' Hstr Henc Hid).
    simpl in Hself. unfold held at 3. rewrite <- Hself.
    apply request_summary_held.
  - right. unfold get_summary, bind, lift. rewrite Hstr, Henc, Hid.
    simpl in *. unfold held. rewrite Hself. eauto.
Qed.

Lemma load_summary_file_held env summary pickled st :
  let out := load_summary_file env summary pickled st in
  let doc := if pickled then pickle_loads env summary
             else json_loads env summary in
  match doc with
  | Ok v => fst out = Ok tt /\ held (snd out) = Some v
  | Raise e => fst out = Raise e /\ snd out = st
  end.
Proof.
  unfold load_summary_file, bind, lift, set_summary_object.
  destruct pickled; simpl; case_results; done.
Qed.






(** ** The id64 cache *)

Module CacheFacts.
Import Cache.


Lemma has_id_elem n t : has_id n t = true <-> n ∈ map id64 t.
Proof.
  unfold has_id. induction t as [|r t IH]; simpl.
  - split; [discriminate | by intros ?%elem_of_nil].
  - rewrite orb_true_iff, elem_of_cons, IH, Z.eqb_eq.
    split; (intros [H|H]; [left; symmetry; exact H | right; exact H]).
Qed.

Lemma has_id_insert n t : has_id n (insert_or_ignore n t) = true.
Proof.
  unfold insert_or_ignore. destruct (has_id n t) eqn:E; [done|].
  apply has_id_elem. rewrite map_app, elem_of_app. right. simpl.
  apply list_elem_of_singleton. done.
Qed.

Lemma insert_or_ignore_present n t :
  has_id n t = true -> insert_or_ignore n t = t.
Proof. unfold insert_or_ignore. by intros ->. Qed.

Lemma update_sid_keys s n t : map id64 (update_sid s n t) = map id64 t.
Proof.
  unfold update_sid. induction t as [|r t IH]; simpl; [done|].
  rewrite IH. by destruct (id64 r =? n).
Qed.

Lemma has_id_update s n m t : has_id m (update_sid s n t) = has_id m t.
Proof.
  apply eq_true_iff_eq. by rewrite !has_id_elem, update_sid_keys.
Qed.

Lemma update_sid_twice s n t :
  update_sid s n (update_sid s n t) = update_sid s n t.
Proof.
  unfold update_sid. induction t as [|r t IH]; simpl; [done|].
  rewrite IH. f_equal.
  destruct (id64 r =? n) eqn:E; simpl; by rewrite E.
Qed.

Lemma store_twice s n t : store s n (store s n t) = store s n t.
Proof.
  unfold store at 1.
  rewrite insert_or_ignore_present.
  - apply update_sid_twice.
  - unfold store. rewrite has_id_update. apply has_id_insert.
Qed.

Lemma pk_unique_insert n t : pk_unique t -> pk_unique (insert_or_ignore n t).
Proof.
  unfold pk_unique, insert_or_ignore. intros Ht.
  destruct (has_id n t) eqn:E; [done|].
  rewrite map_app. simpl. apply NoDup_app. split; [done|]. split.
  - intros m Hm ->%list_elem_of_singleton.
    apply has_id_elem in Hm. congruence.
  - apply NoDup_singleton.
Qed.

Lemma pk_unique_store s n t : pk_unique t -> pk_unique (store s n t).
Proof.
  intros Ht. unfold pk_unique, store. rewrite update_sid_keys.
  by apply pk_unique_insert.
Qed.

(** After the update every row keyed [n] carries [s]. *)
Lemma rows_of_update s n t :
  rows_of n (update_sid s n t)
  = replicate (List.length (rows_of n t)) (Row (Some s) n).
Proof.
  unfold rows_of, update_sid. induction t as [|r t IH]; simpl; [done|].
  destruct (Z.eqb_spec (id64 r) n) as [Heq|Hne]; simpl.
  - rewrite (proj2 (Z.eqb_eq _ _) Heq). simpl. by rewrite IH, Heq.
  - by rewrite (proj2 (Z.eqb_neq _ _) Hne).
Qed.

Lemma rows_of_absent n t : n ∉ map id64 t -> rows_of n t = [].
Proof.
  unfold rows_of. induction t as [|r t IH]; simpl; [done|].
  rewrite not_elem_of_cons. intros [Hne Ht].
  destruct (Z.eqb_spec (id64 r) n); [congruence | auto].
Qed.

(** Under the key constraint a present key has exactly one row. *)
Lemma rows_of_unique n t :
  pk_unique t -> has_id n t = true -> List.length (rows_of n t) = 1%nat.
Proof.
  unfold pk_unique. rewrite has_id_elem.
  induction t as [|r t IH]; simpl.
  - by intros _ ?%elem_of_nil.
  - rewrite NoDup_cons, elem_of_cons. intros [Hr Ht] Hin.
    unfold rows_of in *. simpl.
    destruct (Z.eqb_spec (id64 r) n) as [Heq|Hne]; simpl.
    + subst n. fold (rows_of (id64 r) t).
      by rewrite (rows_of_absent _ _ Hr).
    + apply IH; [done|]. destruct Hin as [->|]; done.
Qed.

Lemma rows_of_store s n t :
  pk_unique t -> rows_of n (store s n t) = [Row (Some s) n].
Proof.
  intros Ht. unfold store. rewrite rows_of_update.
  rewrite rows_of_unique; [done | by apply pk_unique_insert |].
  apply has_id_insert.
Qed.

(** A lookup that missed finds, after the update, the key the name was
    attached to. *)
Lemma select_update_miss s n t :
  select_id64 s t = None ->
  select_id64 s (update_sid s n t) = if has_id n t then Some n else None.
Proof.
  unfold update_sid, has_id. induction t as [|r t IH]; simpl; [done|].
  case_bool_decide as Hsid; [done|]. intros Hmiss.
  destruct (Z.eqb_spec (id64 r) n) as [Heq|Hne]; simpl.
  - rewrite bool_decide_true by done. by rewrite Heq.
  - rewrite bool_decide_false by done. auto.
Qed.

Lemma select_insert_miss s n t :
  select_id64 s t = None -> select_id64 s (insert_or_ignore n t) = None.
Proof.
  unfold insert_or_ignore. destruct (has_id n t); [done|].
  induction t as [|r t IH]; simpl; [done|].
  case_bool_decide; [done|]. auto.
Qed.

Lemma select_store_miss s n t :
  select_id64 s t = None -> select_id64 s (store s n t) = Some n.
Proof.
  intros Hmiss. unfold store.
  rewrite select_update_miss by by apply select_insert_miss.
  by rewrite has_id_insert.
Qed.

End CacheFacts.

(** [cache_store] with parameters SQLite accepts: the table gets
    [Cache.store], and the three statements are logged. *)
Lemma cache_store_ok env s prof n st :
  is_ascii s = true ->
  is_ascii prof = true ->
  sql_integer env prof = Some n ->
  cache_store env (VStr s) prof st
  = (Ok tt,
     State (self st) (Cache.store s n (db st))
           (((log st ++ [DbInsert prof]) ++ [DbUpdate s prof])
              ++ [DbCommit])%list).
Proof.
  intros Hs Hprof Hn.
  unfold cache_store, bind, lift, emit, get_db, put_db, bind_param.
  rewrite Hprof. simpl. rewrite Hn. simpl. rewrite Hs. reflexivity.
Qed.

(** C5: storing the same pair [(sid, id64)] twice leaves exactly one row
    keyed [id64], carrying [sid]; the second store changes nothing in
    the table, and both calls succeed. *)
Theorem cache_store_idempotent
    (env : Env) (s prof : string) (n : Z) (st : state) :
  is_ascii s = true ->
  is_ascii prof = true ->
  sql_integer env prof = Some n ->
  Cache.pk_unique (db st) ->
  let once := cache_store env (VStr s) prof st in
  let twice := cache_store env (VStr s) prof (snd once) in
  fst once = Ok tt /\ fst twice = Ok tt /\
  Cache.rows_of n (db (snd twice)) = [Cache.Row (Some s) n] /\
  db (snd twice) = db (snd once) /\
  Cache.pk_unique (db (snd twice)).
Proof.
  intros Hs Hprof Hn Hpk. simpl.
  rewrite (cache_store_ok env s prof n st Hs Hprof Hn). simpl.
  rewrite (cache_store_ok env s prof n _ Hs Hprof Hn). simpl.
  rewrite CacheFacts.store_twice.
  split; [done|]. split; [done|].
  split; [by apply CacheFacts.rows_of_store|].
  split; [done|]. by apply CacheFacts.pk_unique_store.
Qed.

Lemma cache_store_idempotent_witness :
  let st := State (Fixture.holding Fixture.robin)
                  [Cache.Row (Some "gabe") 76561197960287930;
                   Cache.Row (Some "shy") 76561197960265728] [] in
  let once := cache_store Fixture.env (VStr "robin") "76561197960287930" st in
  let twice :=
    cache_store Fixture.env (VStr "robin") "76561197960287930" (snd once) in
  db (snd twice)
  = [Cache.Row (Some "robin") 76561197960287930;
     Cache.Row (Some "shy") 76561197960265728].
Proof.
  intros st once twice.
  assert (Cache.pk_unique (db st)) as Hpk.
  { unfold Cache.pk_unique. apply (bool_decide_unpack _). vm_compute.
    exact I. }
  pose proof (cache_store_idempotent Fixture.env "robin" "76561197960287930"
                76561197960287930 st eq_refl eq_refl eq_refl Hpk)
    as (_ & _ & _ & Hsame & _).
  fold once in Hsame. fold twice in Hsame. rewrite Hsame. reflexivity.
Defined.


(** A non-numeric [str] that was answered with a text went through the
    legacy endpoint and the store. *)
Lemma resolved_by_request env s id st st1 :
  str_isdigit s = false ->
  get_id64_from_sid env (VStr s) st = (Ok (VStr id), st1) ->
  exists prof n,
    is_ascii s = true /\
    Cache.select_id64 s (db st) = None /\
    urlopen env (format0 0 (_old_profile_url (self st)) s) = Ok prof /\
    id = slice prof (find prof "<steamID64>" + 11)
               (find prof "</steamID64>") /\
    sql_integer env id = Some n /\
    self st1 = self st /\
    db st1 = Cache.store s n (db st) /\
    requests (log st1)
    = (requests (log st)
         ++ [format0 0 (_old_profile_url (self st)) s])%list.
Proof.
  intros Hdigit. unfold get_id64_from_sid, bind, lift, emit, get_db,
    get_self, ret, raise, http_get.
  simpl. rewrite Hdigit. simpl.
  destruct (is_ascii s) eqn:Hs; simpl; [|discriminate].
  destruct (Cache.select_id64 s (db st)) eqn:Hmiss; simpl; [discriminate|].
  unfold bind, lift, emit. simpl.
  destruct (urlopen env _) as [prof|] eqn:Hurl; simpl; [|discriminate].
  destruct (negb _); simpl; [|discriminate].
  set (id' := slice prof _ _).
  unfold cache_store, bind, lift, emit, get_db, put_db, bind_param, raise.
  destruct (is_ascii id') eqn:Hid; simpl; [|discriminate].
  destruct (sql_integer env id') as [n|] eqn:Hn; simpl; [|discriminate].
  rewrite Hs. simpl. intros [= <- <-]. simpl.
  exists prof, n. repeat split; try done.
  unfold requests. rewrite !omap_app. simpl. by rewrite !app_nil_r.
Qed.

(** A lookup that hits answers from the table alone. *)
Lemma get_id64_from_sid_hit env s n st :
  str_isdigit s = false ->
  is_ascii s = true ->
  Cache.select_id64 s (db st) = Some n ->
  get_id64_from_sid env (VStr s) st
  = (Ok (VInt n),
     State (self st) (db st) ((log st ++ [DbConnect]) ++ [DbSelect s])%list).
Proof.
  intros Hdigit Hs Hhit.
  unfold get_id64_from_sid, bind, lift, emit, get_db, ret, bind_param.
  simpl. rewrite Hdigit. simpl. rewrite Hs. simpl. by rewrite Hhit.
Qed.

(** C3, as the code has it: let a first call for a non-numeric [sid]
    resolve at the legacy endpoint and store the mapping, returning the
    text [id].  Then a second call for the same [sid], whatever the
    network has become, is answered from the cache lookup alone: it logs
    a connect and a select, requests no URL and leaves the table as it
    is.  What it returns is the integer [n] of the row stored for [sid],
    the integer SQLite read [id] as: an [int], never the [str] the first
    call returned, and one that prints as [id] exactly when [id] is the
    decimal notation of [n]. *)
Theorem second_resolution_from_cache
    (env env' : Env) (s id : string) (st st1 : state) :
  str_isdigit s = false ->
  get_id64_from_sid env (VStr s) st = (Ok (VStr id), st1) ->
  exists n : Z,
    requests (log st1)
    = (requests (log st)
         ++ [format0 0 (_old_profile_url (self st)) s])%list /\
    sql_integer env id = Some n /\
    Cache.select_id64 s (db st1) = Some n /\
    let out := get_id64_from_sid env' (VStr s) st1 in
    fst out = Ok (VInt n) /\
    fst out <> Ok (VStr id) /\
    (py_str env' (VInt n) = py_str env' (VStr id) <-> str_of_int n = id) /\
    log (snd out) = (log st1 ++ [DbConnect; DbSelect s])%list /\
    requests (log (snd out)) = requests (log st1) /\
    db (snd out) = db st1.
Proof.
  intros Hdigit Hfirst.
  destruct (resolved_by_request env s id st st1 Hdigit Hfirst)
    as (prof & n & Hs & Hmiss & Hurl & Hid & Hn & Hself & Hdb & Hreq).
  exists n.
  assert (Cache.select_id64 s (db st1) = Some n) as Hhit.
  { rewrite Hdb. by apply CacheFacts.select_store_miss. }
  split; [exact Hreq|]. split; [exact Hn|]. split; [exact Hhit|].
  rewrite (get_id64_from_sid_hit env' s n st1 Hdigit Hs Hhit). simpl.
  split; [done|]. split; [discriminate|].
  split; [split; [by intros [= ->] | by intros ->]|].
  split; [by rewrite <- app_assoc|]. split; [|done].
  unfold requests. rewrite !omap_app. simpl. by rewrite !app_nil_r.
Qed.

Lemma second_resolution_from_cache_witness :
  let st := snd (construct Fixture.env VNone [] []) in
  let st1 := snd (get_id64_from_sid Fixture.env (VStr "robin") st) in
  fst (get_id64_from_sid Fixture.env (VStr "robin") st)
  = Ok (VStr "76561197960287930") /\
  fst (get_id64_from_sid (offline Fixture.env) (VStr "robin") st1)
  = Ok (VInt 76561197960287930).
Proof.
  intros st st1. split; [reflexivity|].
  destruct (second_resolution_from_cache Fixture.env (offline Fixture.env)
              "robin" "76561197960287930" st st1 eq_refl eq_refl)
    as (n & _ & Hn & _ & Hout & _).
  injection Hn as <-. exact Hout.
Defined.

(** C3, as the specification has it, fails: the second call does not
    return what the first call returned.  The first returns the [str]
    it cut out of the legacy answer (line 69), the second the [int] of
    the INTEGER column (line 56). *)
Lemma second_resolution_returns_int_not_str :
  let st := snd (construct Fixture.env VNone [] []) in
  let first := get_id64_from_sid Fixture.env (VStr "robin") st in
  let second := get_id64_from_sid Fixture.env (VStr "robin") (snd first) in
  fst first = Ok (VStr "76561197960287930") /\
  fst second = Ok (VInt 76561197960287930) /\
  fst second <> fst first.
Proof. vm_compute. repeat split; discriminate. Qed.

(** ** Loading a serialized summary *)


(** An accessor reads nothing of an instance but the held summary. *)
Lemma call_reads_summary_only env a p q :
  _summary_object p = _summary_object q -> call env a p = call env a q.
Proof.
  destruct p as [o1 u1 so1], q as [o2 u2 so2]. simpl. intros ->.
  destruct a; reflexivity.
Qed.

(** C9: let [get_summary] return the summary [v], and let [doc] be a
    serialization of [v], pickled or JSON.  Loading [doc] with the
    matching flag, into any instance, succeeds and gives an instance
    that holds the same summary as the one that fetched it; every
    accessor, called on the two, has the same outcome. *)
Theorem load_round_trip
    (env : Env) (sid : value) (st st1 : state) (v : value)
    (doc : string) (pickled : bool) (st2 : state) :
  get_summary env sid st = (Ok v, st1) ->
  serialization_of env pickled doc v ->
  let out := load_summary_file env doc pickled st2 in
  fst out = Ok tt /\
  held (snd out) = Some v /\
  held (snd out) = held st1 /\
  forall a : accessor, call env a (self (snd out)) = call env a (self st1).
Proof.
  intros Hget Hdoc. simpl.
  assert (held st1 = Some v) as Hheld.
  { destruct (get_summary_held env sid st)
      as [(w & Hw & Hout)|[_ [e He]]]; rewrite Hget in *; simpl in *.
    - destruct (truthy w); [congruence | discriminate].
    - discriminate. }
  pose proof (load_summary_file_held env doc pickled st2) as Hload.
  simpl in Hload. unfold serialization_of in Hdoc. rewrite Hdoc in Hload.
  destruct Hload as [Hok Hnew].
  split; [exact Hok|]. split; [exact Hnew|].
  split; [by rewrite Hheld|].
  intros a. apply call_reads_summary_only.
  unfold held in *. by rewrite Hnew, Hheld.
Qed.

Lemma load_round_trip_witness :
  let st := snd (construct Fixture.env VNone [] []) in
  let st1 := snd (get_summary Fixture.env (VStr "robin") st) in
  let json := load_summary_file Fixture.env Fixture.robin_json false st in
  let pickle := load_summary_file Fixture.env Fixture.robin_pickle true st1 in
  (forall a, call Fixture.env a (self (snd json))
             = call Fixture.env a (self st1)) /\
  (forall a, call Fixture.env a (self (snd pickle))
             = call Fixture.env a (self st1)).
Proof.
  intros st st1 json pickle. split.
  - refine (proj2 (proj2 (proj2 (load_round_trip Fixture.env (VStr "robin")
              st st1 Fixture.robin Fixture.robin_json false st _ _)))).
    + vm_compute. reflexivity.
    + vm_compute. reflexivity.
  - refine (proj2 (proj2 (proj2 (load_round_trip Fixture.env (VStr "robin")
              st st1 Fixture.robin Fixture.robin_pickle true st1 _ _)))).
    + vm_compute. reflexivity.
    + vm_compute. reflexivity.
Defined.

(** ** Strings: append, prefix, find and substring *)

Lemma append_cons x a b :
  String.append (String x a) b = String x (String.append a b).
Proof. reflexivity. Qed.

Lemma append_empty b : String.append "" b = b.
Proof. reflexivity. Qed.

Lemma append_assoc (a b c : string) :
  String.append (String.append a b) c = String.append a (String.append b c).
Proof.
  induction a as [|x a IH]; [done|]. rewrite !append_cons. by rewrite IH.
Qed.

Lemma length_append (a b : string) :
  String.length (String.append a b) = (String.length a + String.length b)%nat.
Proof.
  induction a as [|x a IH]; [done|]. rewrite append_cons. simpl.
  by rewrite IH.
Qed.

Lemma len_append a b : len (String.append a b) = len a + len b.
Proof. unfold len. rewrite length_append. lia. Qed.

Lemma prefix_append_l n a b :
  String.prefix n a = true -> String.prefix n (String.append a b) = true.
Proof.
  revert a. induction n as [|x n IH]; intros [|y a];
    rewrite ?append_cons, ?append_empty; simpl; try done.
  - by destruct b.
  - destruct (ascii_dec x y); [auto | done].
Qed.

Lemma prefix_length n s :
  String.prefix n s = true -> (String.length n <= String.length s)%nat.
Proof.
  revert s. induction n as [|x n IH]; intros [|y s]; simpl; try done; try lia.
  destruct (ascii_dec x y); [|done]. intros H%IH. lia.
Qed.

Lemma prefix_append_short n a b :
  String.prefix n (String.append a b) = true ->
  (String.length n <= String.length a)%nat ->
  String.prefix n a = true.
Proof.
  revert a. induction n as [|x n IH]; intros [|y a];
    rewrite ?append_cons, ?append_empty; simpl; try done; try lia.
  destruct (ascii_dec x y); [|done]. intros H Hlen. apply IH; [done | lia].
Qed.

Lemma find_from_found n s i k :
  find_from n s i = k -> k <> -1 -> 0 <= i ->
  (String.length n <= String.length s)%nat /\ i <= k.
Proof.
  revert i k. induction s as [|c s IH]; intros i k; cbn [find_from].
  - destruct n as [|x n]; simpl; [|intros <- Hne; by destruct Hne].
    intros <- _ _. split; lia.
  - destruct (String.prefix n (String c s)) eqn:E.
    + intros <- _ _. split; [by apply prefix_length in E | lia].
    + intros Hk Hne Hi. destruct (IH (i + 1) k Hk Hne) as [H1 H2]; [lia|].
      split; simpl; lia.
Qed.

Lemma find_from_append_l n a b i k :
  0 <= i -> find_from n a i = k -> k <> -1 ->
  find_from n (String.append a b) i = k.
Proof.
  revert i k. induction a as [|c a IH]; intros i k Hi.
  - destruct n as [|x n]; simpl; [|intros <- Hne; by destruct Hne].
    intros <- _. rewrite append_empty. by destruct b.
  - rewrite append_cons. cbn [find_from].
    destruct (String.prefix n (String c a)) eqn:E.
    + intros <- _. pose proof (prefix_append_l _ _ b E) as E'.
      rewrite append_cons in E'. by rewrite E'.
    + intros Hk Hne.
      destruct (find_from_found n a (i + 1) k Hk Hne) as [Hlen _]; [lia|].
      destruct (String.prefix n (String c (String.append a b))) eqn:E2.
      * rewrite <- append_cons in E2.
        apply prefix_append_short in E2; [congruence | simpl; lia].
      * apply IH; [lia | done | done].
Qed.

Lemma substring_append_mid a b c :
  String.substring (String.length a) (String.length b)
    (String.append a (String.append b c)) = b.
Proof.
  induction a as [|x a IH]; [|rewrite append_cons; simpl; done].
  rewrite append_empty. simpl.
  induction b as [|y b IHb]; [by destruct c|].
  rewrite append_cons. simpl. by rewrite IHb.
Qed.

Lemma substring_append_skip a m rest :
  String.substring (String.length a) m (String.append a rest)
  = String.substring 0 m rest.
Proof. induction a as [|x a IH]; [done|]. rewrite append_cons. done. Qed.

(** ** Resolution at the legacy endpoint *)

Lemma format_legacy_template s :
  format0 0 legacy_template s = legacy_url s.
Proof. reflexivity. Qed.

Lemma len_nonneg s : 0 <= len s.
Proof. unfold len. lia. Qed.

(** Lines 60 to 62 on a document whose first opening tag ends [pre] and
    whose first closing tag follows [id]: both tags are found where
    they stand and the slice is [id]. *)
Lemma slice_between_tags pre id post :
  find (String.append pre open_tag) open_tag = len pre ->
  find (String.append pre
          (String.append open_tag (String.append id close_tag))) close_tag
  = len pre + 11 + len id ->
  let prof := legacy_document pre id post in
  find prof open_tag = len pre /\
  find prof close_tag = len pre + 11 + len id /\
  slice prof (find prof open_tag + 11) (find prof close_tag) = id.
Proof.
  intros Hopen Hclose prof.
  pose proof (len_nonneg pre) as Hpre. pose proof (len_nonneg id) as Hid.
  pose proof (len_nonneg post) as Hpost.
  assert (find prof open_tag = len pre) as H1.
  { unfold prof, legacy_document, find. rewrite <- append_assoc.
    apply find_from_append_l; [lia | exact Hopen | lia]. }
  assert (find prof close_tag = len pre + 11 + len id) as H2.
  { unfold prof, legacy_document, find.
    replace (String.append pre
               (String.append open_tag
                  (String.append id (String.append close_tag post))))
      with (String.append
              (String.append pre
                 (String.append open_tag (String.append id close_tag)))
              post)
      by (by rewrite !append_assoc).
    apply find_from_append_l; [lia | exact Hclose | lia]. }
  split; [exact H1|]. split; [exact H2|].
  rewrite H1, H2. unfold slice, clamp.
  assert (len prof = len pre + 11 + len id + 12 + len post) as Hlen.
  { unfold prof, legacy_document. rewrite !len_append.
    change (len open_tag) with 11. change (len close_tag) with 12. lia. }
  rewrite Hlen.
  replace (len pre + 11 <? 0) with false by (symmetry; apply Z.ltb_ge; lia).
  replace (len pre + 11 + len id <? 0) with false
    by (symmetry; apply Z.ltb_ge; lia).
  rewrite !Z.min_l, !Z.max_r by lia.
  replace (Z.to_nat (len pre + 11))
    with (String.length (String.append pre open_tag))
    by (rewrite length_append; unfold len; simpl; lia).
  replace (Z.to_nat (len pre + 11 + len id - (len pre + 11)))
    with (String.length id) by (unfold len; lia).
  unfold prof, legacy_document. rewrite <- append_assoc.
  apply substring_append_mid.
Qed.

(** A miss on a non-numeric 7-bit [str]: what is left after the
    request has been answered with [prof]. *)
Lemma get_id64_from_sid_miss env s st prof :
  str_isdigit s = false ->
  is_ascii s = true ->
  Cache.select_id64 s (db st) = None ->
  urlopen env (format0 0 (_old_profile_url (self st)) s) = Ok prof ->
  get_id64_from_sid env (VStr s) st
  = (if negb (find prof open_tag =? -1)
     then
       let id := slice prof (find prof open_tag + 11) (find prof close_tag) in
       cache_store env (VStr s) id ;;; ret (VStr id)
     else ret VNone)
      (State (self st) (db st)
         (log st ++ [DbConnect; DbSelect s;
                     HttpGet (format0 0 (_old_profile_url (self st)) s)])%list).
Proof.
  intros Hdigit Hs Hmiss Hurl.
  unfold get_id64_from_sid, bind, lift, emit, get_db, get_self, ret,
    http_get, bind_param.
  simpl. rewrite Hdigit. simpl. rewrite Hs. simpl. rewrite Hmiss. simpl.
  unfold bind, lift, emit. simpl. rewrite Hurl. simpl.
  rewrite <- !app_assoc. reflexivity.
Qed.

(** X1: a non-numeric 7-bit name that the cache does not know, on an
    instance whose legacy URL is the one [__init__] sets, is resolved by
    one request to [http://steamcommunity.com/id/<sid>?xml=1]; when the
    answer carries [id] between its first [<steamID64>] and its first
    [</steamID64>] and the cache reads [id] as the integer [n], the call
    returns [id] and the cache becomes [Cache.store sid n] of what it
    was. *)
Theorem resolves_at_legacy_endpoint
    (env : Env) (s : string) (st : state) (pre id post : string) (n : Z) :
  str_isdigit s = false ->
  is_ascii s = true ->
  _old_profile_url (self st) = legacy_template ->
  Cache.select_id64 s (db st) = None ->
  urlopen env (legacy_url s) = Ok (legacy_document pre id post) ->
  find (String.append pre open_tag) open_tag = len pre ->
  find (String.append pre
          (String.append open_tag (String.append id close_tag))) close_tag
  = len pre + 11 + len id ->
  is_ascii id = true ->
  sql_integer env id = Some n ->
  get_id64_from_sid env (VStr s) st
  = (Ok (VStr id),
     State (self st) (Cache.store s n (db st))
       (log st ++ [DbConnect; DbSelect s; HttpGet (legacy_url s);
                   DbInsert id; DbUpdate s id; DbCommit])%list).
Proof.
  intros Hdigit Hs Htpl Hmiss Hurl Hopen Hclose Hid Hn.
  rewrite <- format_legacy_template, <- Htpl in Hurl.
  rewrite (get_id64_from_sid_miss env s st _ Hdigit Hs Hmiss Hurl).
  destruct (slice_between_tags pre id post Hopen Hclose) as (H1 & H2 & H3).
  simpl in H1, H2, H3. rewrite H3, H1.
  pose proof (len_nonneg pre).
  replace (len pre =? -1) with false by (symmetry; apply Z.eqb_neq; lia).
  simpl. unfold bind.
  rewrite (cache_store_ok env s id n _ Hs Hid Hn). simpl. unfold ret.
  rewrite Htpl, format_legacy_template. rewrite <- !app_assoc. reflexivity.
Qed.

Lemma resolves_at_legacy_endpoint_witness :
  let st := snd (construct Fixture.env VNone [] []) in
  get_id64_from_sid Fixture.env (VStr "robin") st
  = (Ok (VStr "76561197960287930"),
     State (self st) [Cache.Row (Some "robin") 76561197960287930]
       [DbConnect; DbCommit; DbConnect; DbSelect "robin";
        HttpGet "http://steamcommunity.com/id/robin?xml=1";
        DbInsert "76561197960287930";
        DbUpdate "robin" "76561197960287930"; DbCommit]).
Proof.
  intros st.
  exact (resolves_at_legacy_endpoint Fixture.env "robin" st "<profile>"
           "76561197960287930" "</profile>" 76561197960287930
           eq_refl eq_refl eq_refl eq_refl eq_refl eq_refl eq_refl eq_refl
           eq_refl).
Defined.

Lemma requests_app l1 l2 :
  requests (l1 ++ l2) = (requests l1 ++ requests l2)%list.
Proof. apply omap_app. Qed.

Lemma cache_store_requests env sid prof st :
  requests (log (snd (cache_store env sid prof st))) = requests (log st).
Proof.
  unfold cache_store, bind, lift, emit, get_db, put_db, raise. simpl.
  destruct (is_ascii prof); simpl; [|done].
  destruct (sql_integer env prof); simpl;
    [|rewrite requests_app; simpl; by rewrite app_nil_r].
  destruct (bind_param sid); simpl;
    rewrite !requests_app; simpl; by rewrite !app_nil_r.
Qed.

(** A miss always costs exactly one request, whatever comes back. *)
Lemma get_id64_from_sid_miss_requests env s st :
  str_isdigit s = false ->
  is_ascii s = true ->
  Cache.select_id64 s (db st) = None ->
  requests (log (snd (get_id64_from_sid env (VStr s) st)))
  = (requests (log st)
       ++ [format0 0 (_old_profile_url (self st)) s])%list.
Proof.
  intros Hdigit Hs Hmiss.
  destruct (urlopen env (format0 0 (_old_profile_url (self st)) s))
    as [prof|e] eqn:Hurl.
  - rewrite (get_id64_from_sid_miss env s st prof Hdigit Hs Hmiss Hurl).
    destruct (negb _); simpl.
    + unfold bind.
      match goal with
      | |- context [cache_store env ?a ?b ?c] =>
          pose proof (cache_store_requests env a b c) as Hstore;
          destruct (cache_store env a b c) as [[[]|] st']
      end; simpl in *; rewrite Hstore, requests_app; simpl; done.
    + rewrite requests_app. done.
  - unfold get_id64_from_sid, bind, lift, emit, get_db, get_self, ret,
      http_get, bind_param.
    simpl. rewrite Hdigit. simpl. rewrite Hs. simpl. rewrite Hmiss. simpl.
    unfold bind, lift, emit. simpl. rewrite Hurl. simpl.
    rewrite !requests_app. simpl. by rewrite !app_nil_r.
Qed.

(** X2: when the answer of the legacy endpoint has no [<steamID64>]
    tag, the call returns [None] after its one request and writes
    nothing: the cache is left as it was, so the next call for the same
    name, on any network, asks the endpoint again. *)
Theorem unknown_name_is_not_cached
    (env env' : Env) (s : string) (st : state) (prof : string) :
  str_isdigit s = false ->
  is_ascii s = true ->
  Cache.select_id64 s (db st) = None ->
  urlopen env (format0 0 (_old_profile_url (self st)) s) = Ok prof ->
  find prof open_tag = -1 ->
  let out := get_id64_from_sid env (VStr s) st in
  out = (Ok VNone,
         State (self st) (db st)
           (log st ++ [DbConnect; DbSelect s;
                       HttpGet (format0 0 (_old_profile_url (self st)) s)])%list)
  /\ requests (log (snd (get_id64_from_sid env' (VStr s) (snd out))))
     = (requests (log st)
          ++ [format0 0 (_old_profile_url (self st)) s;
              format0 0 (_old_profile_url (self st)) s])%list.
Proof.
  intros Hdigit Hs Hmiss Hurl Hfind. simpl.
  rewrite (get_id64_from_sid_miss env s st prof Hdigit Hs Hmiss Hurl).
  rewrite Hfind. simpl. unfold ret. split; [reflexivity|].
  rewrite get_id64_from_sid_miss_requests by done. simpl.
  rewrite requests_app. simpl. by rewrite <- app_assoc.
Qed.

Lemma unknown_name_is_not_cached_witness :
  let st := snd (construct Fixture.env VNone [] []) in
  get_id64_from_sid Fixture.env (VStr "nobody") st
  = (Ok VNone,
     State (self st) []
       [DbConnect; DbCommit; DbConnect; DbSelect "nobody";
        HttpGet "http://steamcommunity.com/id/nobody?xml=1"]).
Proof.
  intros st.
  exact (proj1 (unknown_name_is_not_cached Fixture.env Fixture.env "nobody"
                  st "<response><error>not found</error></response>"
                  eq_refl eq_refl eq_refl eq_refl eq_refl)).
Defined.

(** ** What calls do to the cache *)

Lemma cache_store_db env s prof st :
  is_ascii s = true ->
  let t' := db (snd (cache_store env (VStr s) prof st)) in
  t' = db st \/ exists n, t' = Cache.store s n (db st).
Proof.
  intros Hs. unfold cache_store, bind, lift, emit, get_db, put_db, raise,
    bind_param. simpl.
  destruct (is_ascii prof); simpl; [|by left].
  destruct (sql_integer env prof) as [n|]; simpl; [|by left].
  rewrite Hs. simpl. right. by exists n.
Qed.

Lemma get_id64_from_sid_db env sid st :
  cache_step (db st) (db (snd (get_id64_from_sid env sid st))).
Proof.
  unfold get_id64_from_sid, bind, lift, emit, get_db, get_self, ret, raise,
    http_get.
  destruct sid; simpl; try (by left).
  all: match goal with |- context [if ?b then _ else _] => destruct b end;
    simpl; try (by left).
  - destruct (is_ascii s) eqn:Hs; simpl; [|by left].
    destruct (Cache.select_id64 s (db st)) eqn:Hmiss; simpl; [by left|].
    unfold bind, lift, emit. simpl.
    destruct (urlopen env _) as [prof|]; simpl; [|by left].
    destruct (negb _); simpl; [|by left].
    match goal with
    | |- context [cache_store env ?a ?b ?c] =>
        pose proof (cache_store_db env s b c Hs) as Hdb;
        destruct (cache_store env a b c) as [[[]|] st']
    end; simpl in *; (destruct Hdb as [->|[n ->]];
                      [by left | right; by exists s, n]).
  - destruct (Cache.select_id64 s (db st)); simpl; [by left|].
    destruct (is_ascii s); simpl; [|by left].
    unfold bind, lift, emit. simpl.
    destruct (urlopen env _) as [prof|]; by left.
Qed.

(** X3: a [unicode] name is never written to the cache, whatever the
    endpoint answers: the test [type(sid) == str] fails, so a name the
    cache does not know resolves to [None] even when the answer carries
    an id. *)
Theorem unicode_name_is_never_stored
    (env : Env) (s : string) (st : state) :
  let out := get_id64_from_sid env (VUnicode s) st in
  db (snd out) = db st /\
  (unicode_isdigit s = false ->
   Cache.select_id64 s (db st) = None ->
   returns (fst out) -> fst out = Ok VNone).
Proof.
  unfold get_id64_from_sid, bind, lift, emit, get_db, get_self, ret, raise,
    http_get. simpl.
  destruct (unicode_isdigit s); simpl.
  - split; [done|]. discriminate.
  - destruct (Cache.select_id64 s (db st)); simpl.
    + split; [done|]. discriminate.
    + destruct (is_ascii s); simpl.
      * unfold bind, lift, emit. simpl.
        destruct (urlopen env _); simpl; split; try done.
        intros _ _ [v Hv]. discriminate.
      * split; [done|]. intros _ _ [v Hv]. discriminate.
Qed.

Lemma unicode_name_is_never_stored_witness :
  let st := snd (construct Fixture.env VNone [] []) in
  let out := get_id64_from_sid Fixture.env (VUnicode "robin") st in
  db (snd out) = [] /\ fst out = Ok VNone.
Proof.
  intros st out.
  destruct (unicode_name_is_never_stored Fixture.env "robin" st) as [Hdb Hout].
  split; [exact Hdb|].
  apply Hout; [reflexivity | reflexivity |].
  exists VNone. reflexivity.
Defined.

Lemma request_summary_db env id64 st :
  db (snd (request_summary env id64 st)) = db st.
Proof.
  unfold request_summary, bind, lift, get_self, http_get, emit.
  destruct (py_str env id64) as [tail|e]; simpl; [|done].
  unfold bind, lift, set_summary_object, raise, ret. simpl.
  case_results; try done.
  match goal with |- context [truthy ?v] => destruct (truthy v) end; done.
Qed.

Lemma get_summary_db env sid st :
  cache_step (db st) (db (snd (get_summary env sid st))).
Proof.
  destruct (py_str env sid) as [s0|e] eqn:Hstr.
  2:{ left. unfold get_summary, bind, lift. by rewrite Hstr. }
  destruct (str_encode s0) as [s|e] eqn:Henc.
  2:{ left. unfold get_summary, bind, lift. by rewrite Hstr, Henc. }
  pose proof (get_id64_from_sid_db env (VStr s) st) as Hstep.
  destruct (get_id64_from_sid env (VStr s) st) as [[id|e] st'] eqn:Hid.
  - rewrite (get_summary_resolved env sid s0 s st id st' Hstr Henc Hid).
    by rewrite request_summary_db.
  - unfold get_summary, bind, lift. by rewrite Hstr, Henc, Hid.
Qed.

Lemma load_summary_file_db env summary pickled st :
  db (snd (load_summary_file env summary pickled st)) = db st /\
  log (snd (load_summary_file env summary pickled st)) = log st.
Proof.
  unfold load_summary_file, bind, lift, set_summary_object.
  destruct pickled; simpl; case_results; done.
Qed.

Lemma perform_db env o st :
  cache_step (db st) (db (snd (perform env o st))).
Proof.
  destruct o as [sid|summary pickled|sid|a]; simpl; unfold bind.
  - pose proof (get_summary_db env sid st) as H.
    by destruct (get_summary env sid st) as [[v|e] st'].
  - pose proof (load_summary_file_db env summary pickled st) as [H _].
    destruct (load_summary_file env summary pickled st) as [[[]|e] st'];
      simpl in *; left; done.
  - pose proof (get_id64_from_sid_db env sid st) as H.
    by destruct (get_id64_from_sid env sid st) as [[v|e] st'].
  - unfold get_self, lift. simpl. by left.
Qed.

(** Counting the rows that carry a name. *)
Lemma sid_count_app s t1 t2 :
  sid_count s (t1 ++ t2)%list = (sid_count s t1 + sid_count s t2)%nat.
Proof. unfold sid_count. by rewrite List.filter_app, List.length_app. Qed.

Lemma select_none_count s t :
  Cache.select_id64 s t = None <-> sid_count s t = 0%nat.
Proof.
  unfold sid_count. induction t as [|r t IH]; simpl; [done|].
  destruct (bool_decide (Cache.sid r = Some s)); simpl; [|exact IH].
  split; discriminate.
Qed.

Lemma sid_count_update_other s' s n t :
  s' <> s ->
  (sid_count s' (Cache.update_sid s n t) <= sid_count s' t)%nat.
Proof.
  intros Hne. unfold sid_count, Cache.update_sid.
  induction t as [|r t IH]; simpl; [done|].
  destruct (Cache.id64 r =? n); simpl.
  - rewrite bool_decide_false by congruence.
    destruct (bool_decide (Cache.sid r = Some s')); simpl; lia.
  - destruct (bool_decide (Cache.sid r = Some s')); simpl; lia.
Qed.

Lemma sid_count_update_same s n t :
  (sid_count s (Cache.update_sid s n t)
   <= sid_count s t + List.length (Cache.rows_of n t))%nat.
Proof.
  unfold sid_count, Cache.update_sid, Cache.rows_of.
  induction t as [|r t IH]; simpl; [done|].
  destruct (Cache.id64 r =? n); simpl.
  - rewrite bool_decide_true by done.
    destruct (bool_decide (Cache.sid r = Some s)); simpl; lia.
  - destruct (bool_decide (Cache.sid r = Some s)); simpl; lia.
Qed.

Lemma sid_count_insert s n t :
  sid_count s (Cache.insert_or_ignore n t) = sid_count s t.
Proof.
  unfold Cache.insert_or_ignore. destruct (Cache.has_id n t); [done|].
  rewrite sid_count_app. unfold sid_count at 2. simpl. lia.
Qed.

Lemma sid_unique_store s n t :
  Cache.pk_unique t ->
  sid_unique t ->
  Cache.select_id64 s t = None ->
  sid_unique (Cache.store s n t).
Proof.
  intros Hpk Hsid Hmiss s'. unfold Cache.store.
  destruct (decide (s' = s)) as [->|Hne].
  - etrans; [apply sid_count_update_same|].
    rewrite sid_count_insert.
    rewrite (proj1 (select_none_count s t) Hmiss).
    rewrite CacheFacts.rows_of_unique;
      [lia | by apply CacheFacts.pk_unique_insert
      | apply CacheFacts.has_id_insert].
  - etrans; [by apply sid_count_update_other|].
    rewrite sid_count_insert. apply Hsid.
Qed.

Lemma cache_step_invariants t t' :
  cache_step t t' ->
  (Cache.pk_unique t -> Cache.pk_unique t') /\
  (Cache.pk_unique t -> sid_unique t -> sid_unique t') /\
  (forall m, Cache.has_id m t = true -> Cache.has_id m t' = true) /\
  (List.length t <= List.length t')%nat.
Proof.
  intros [->|(s & n & Hmiss & ->)]; [done|].
  split; [apply CacheFacts.pk_unique_store|].
  split; [intros; by apply sid_unique_store|].
  split.
  - intros m Hm. unfold Cache.store. rewrite CacheFacts.has_id_update.
    unfold Cache.insert_or_ignore. destruct (Cache.has_id n t); [done|].
    unfold Cache.has_id in *. rewrite existsb_app, Hm. done.
  - unfold Cache.store, Cache.update_sid, Cache.insert_or_ignore.
    rewrite List.length_map. destruct (Cache.has_id n t); [done|].
    rewrite List.length_app. lia.
Qed.

Lemma history_db_invariants h st :
  (Cache.pk_unique (db st) -> Cache.pk_unique (db (history h st))) /\
  (Cache.pk_unique (db st) -> sid_unique (db st) ->
   sid_unique (db (history h st))) /\
  (forall m, Cache.has_id m (db st) = true ->
             Cache.has_id m (db (history h st)) = true) /\
  (List.length (db st) <= List.length (db (history h st)))%nat.
Proof.
  revert st. induction h as [|[env o] h IH]; intros st; simpl; [done|].
  destruct (cache_step_invariants _ _ (perform_db env o st))
    as (Hpk & Hsid & Hkeep & Hlen).
  destruct (IH (snd (perform env o st))) as (IHpk & IHsid & IHkeep & IHlen).
  split; [auto|]. split; [auto|]. split; [auto|]. lia.
Qed.

Lemma sid_count_in s n t :
  In (Cache.Row (Some s) n) t -> (1 <= sid_count s t)%nat.
Proof.
  unfold sid_count. induction t as [|r t IH]; simpl; [done|].
  intros [->|Hin]; simpl.
  - rewrite bool_decide_true by done. simpl. lia.
  - destruct (bool_decide _); simpl; [lia | auto].
Qed.

Lemma select_the_only_row s n t :
  (sid_count s t <= 1)%nat ->
  In (Cache.Row (Some s) n) t ->
  Cache.select_id64 s t = Some n.
Proof.
  unfold sid_count. induction t as [|r t IH]; simpl; [done|].
  intros Hcount [->|Hin]; simpl.
  - by rewrite bool_decide_true.
  - pose proof (sid_count_in s n t Hin) as Hone. unfold sid_count in Hone.
    destruct (bool_decide (Cache.sid r = Some s)); simpl in *; [lia|].
    by apply IH.
Qed.

(** X4: the cache stays a one-to-one table.  If no two rows share an
    id64 and no name is attached to two rows, the same holds after any
    history of calls, in any environments; so wherever a row for a name
    stands in the table, the lookup of line 53 returns that row's
    id64. *)
Theorem cache_stays_one_to_one (h : list (Env * op)) (st : state) :
  Cache.pk_unique (db st) ->
  sid_unique (db st) ->
  let t := db (history h st) in
  Cache.pk_unique t /\ sid_unique t /\
  forall s n, In (Cache.Row (Some s) n) t -> Cache.select_id64 s t = Some n.
Proof.
  intros Hpk Hsid t.
  destruct (history_db_invariants h st) as (Hpk' & Hsid' & _).
  split; [auto|]. split; [auto|].
  intros s n Hin. apply select_the_only_row; [|done].
  by apply Hsid'.
Qed.

Lemma cache_stays_one_to_one_witness :
  let st := snd (construct Fixture.env VNone [] []) in
  let t := db (history [(Fixture.env, Fetch (VStr "robin"));
                        (Fixture.env, Resolve (VStr "nobody"));
                        (offline Fixture.env, Fetch (VStr "robin"))] st) in
  Cache.select_id64 "robin" t = Some 76561197960287930.
Proof.
  intros st t.
  refine (proj2 (proj2 (cache_stays_one_to_one _ st _ _)) "robin" _ _).
  - apply NoDup_nil_2.
  - intros s. apply Nat.le_0_l.
  - vm_compute. left. reflexivity.
Defined.

(** X5: no call deletes from the cache: after any history every id64
    that had a row still has one, and the table has not shrunk. *)
Theorem cache_rows_are_never_deleted (h : list (Env * op)) (st : state) :
  (forall m, Cache.has_id m (db st) = true ->
             Cache.has_id m (db (history h st)) = true) /\
  (List.length (db st) <= List.length (db (history h st)))%nat.
Proof. destruct (history_db_invariants h st) as (_ & _ & H). exact H. Qed.

Lemma select_has_id s n t :
  Cache.select_id64 s t = Some n -> Cache.has_id n t = true.
Proof.
  unfold Cache.has_id. induction t as [|r t IH]; simpl; [done|].
  destruct (bool_decide _); simpl.
  - intros [= <-]. by rewrite Z.eqb_refl.
  - intros H%IH. rewrite H. apply orb_true_r.
Qed.

(** A name other than the one attached does not see the rows the update
    rewrote. *)
Lemma select_update_other s1 s2 n t :
  s1 <> s2 ->
  Cache.select_id64 s1 (Cache.update_sid s2 n t)
  = Cache.select_id64 s1
      (List.filter (fun r => negb (Cache.id64 r =? n)) t).
Proof.
  intros Hne. unfold Cache.update_sid.
  induction t as [|r t IH]; simpl; [done|].
  destruct (Cache.id64 r =? n); simpl.
  - by rewrite bool_decide_false by congruence.
  - by rewrite IH.
Qed.

Lemma select_filter_none s f t :
  sid_count s t = 0%nat -> Cache.select_id64 s (List.filter f t) = None.
Proof.
  unfold sid_count. induction t as [|r t IH]; simpl; [done|].
  destruct (bool_decide (Cache.sid r = Some s)) eqn:E; simpl; [done|].
  intros H. destruct (f r); simpl; [rewrite E|]; auto.
Qed.

Lemma select_without_its_row s n t :
  (sid_count s t <= 1)%nat ->
  Cache.select_id64 s t = Some n ->
  Cache.select_id64 s
    (List.filter (fun r => negb (Cache.id64 r =? n)) t) = None.
Proof.
  unfold sid_count. induction t as [|r t IH]; simpl; [done|].
  destruct (bool_decide (Cache.sid r = Some s)) eqn:E; simpl.
  - intros Hcount [= <-]. rewrite Z.eqb_refl. simpl.
    apply select_filter_none. unfold sid_count. lia.
  - intros Hcount Hsel. destruct (negb _); simpl; [rewrite E|]; auto.
Qed.

(** X6: one name per account.  When the endpoint resolves a new name
    [s2] to an id64 the cache holds under the name [s1], the store
    re-labels that row: afterwards [s2] is found, [s1] is not, and the
    table has the rows it had. *)
Theorem store_takes_the_row_over
    (env : Env) (s1 s2 prof : string) (n : Z) (st : state) :
  s1 <> s2 ->
  is_ascii s2 = true ->
  is_ascii prof = true ->
  sql_integer env prof = Some n ->
  sid_unique (db st) ->
  Cache.select_id64 s1 (db st) = Some n ->
  Cache.select_id64 s2 (db st) = None ->
  let out := cache_store env (VStr s2) prof st in
  fst out = Ok tt /\
  Cache.select_id64 s2 (db (snd out)) = Some n /\
  Cache.select_id64 s1 (db (snd out)) = None /\
  map Cache.id64 (db (snd out)) = map Cache.id64 (db st).
Proof.
  intros Hne Hs2 Hprof Hn Hsid Hs1 Hmiss. simpl.
  rewrite (cache_store_ok env s2 prof n st Hs2 Hprof Hn). simpl.
  split; [done|].
  split; [by apply CacheFacts.select_store_miss|].
  unfold Cache.store.
  rewrite (CacheFacts.insert_or_ignore_present n (db st))
    by by apply (select_has_id s1).
  split.
  - rewrite select_update_other by done.
    by apply select_without_its_row.
  - apply CacheFacts.update_sid_keys.
Qed.

Lemma store_takes_the_row_over_witness :
  let st := State (Fixture.holding Fixture.robin)
                  [Cache.Row (Some "gabe") 76561197960287930] [] in
  let out :=
    cache_store Fixture.env (VStr "robin") "76561197960287930" st in
  Cache.select_id64 "robin" (db (snd out)) = Some 76561197960287930 /\
  Cache.select_id64 "gabe" (db (snd out)) = None.
Proof.
  intros st out.
  assert (sid_unique (db st)) as Hsid.
  { intros s. unfold sid_count. simpl.
    destruct (bool_decide _); simpl; lia. }
  destruct (store_takes_the_row_over Fixture.env "gabe" "robin"
              "76561197960287930" 76561197960287930 st
              ltac:(discriminate) eq_refl eq_refl eq_refl Hsid
              eq_refl eq_refl) as (_ & Hnew & Hold & _).
  split; [exact Hnew | exact Hold].
Defined.

(** ** Fetching and loading, continued *)

Lemma digit_is_ascii c : is_digit_char c = true -> is_ascii_char c = true.
Proof.
  unfold is_digit_char, is_ascii_char.
  rewrite andb_true_iff, !Z.leb_le, Z.ltb_lt. lia.
Qed.

Lemma isdigit_is_ascii s : str_isdigit s = true -> is_ascii s = true.
Proof.
  unfold str_isdigit, is_ascii. rewrite andb_true_iff. intros [_ H].
  induction s as [|c s IH]; simpl in *; [done|].
  apply andb_true_iff in H as [Hc Hs]. by rewrite (digit_is_ascii c Hc), IH.
Qed.

(** A numeric [str] goes straight to the summary request. *)
Lemma get_summary_numeric env s st :
  str_isdigit s = true ->
  get_summary env (VStr s) st = request_summary env (VStr s) st.
Proof.
  intros Hdigit.
  assert (get_id64_from_sid env (VStr s) st = (Ok (VStr s), st)) as Hid.
  { unfold get_id64_from_sid, bind, ret. simpl. by rewrite Hdigit. }
  rewrite (get_summary_resolved env (VStr s) s s st (VStr s) st eq_refl);
    [|unfold str_encode; by rewrite isdigit_is_ascii | exact Hid].
  by destruct (truthy (VStr s)).
Qed.

(** X7: fetching by numeric id.  The call touches the cache not at all
    and sends one request, to [_profile_url + sid]; when the answer
    decodes to a document whose [response.players.player] list starts
    with [v], the instance holds [v] afterwards, and [v] is returned if
    it is true; if it is false (an empty dictionary, say) the call
    raises "Profile not found", with [v] held all the same. *)
Theorem fetch_by_numeric_id
    (env : Env) (s : string) (st : state)
    (body : string) (doc v : value) (l : list value) :
  str_isdigit s = true ->
  urlopen env (String.append (_profile_url (self st)) s) = Ok body ->
  is_ascii body = true ->
  json_loads env body = Ok doc ->
  player_list doc = Ok (VList (v :: l)) ->
  get_summary env (VStr s) st
  = (if truthy v then Ok v else Raise (ProfileError "Profile not found"),
     State (Profile (_old_profile_url (self st)) (_profile_url (self st))
                    (Some v))
           (db st)
           (log st ++ [HttpGet (String.append (_profile_url (self st)) s)])%list).
Proof.
  intros Hdigit Hurl Hascii Hdoc Hl.
  rewrite (get_summary_numeric env s st Hdigit).
  unfold request_summary, bind, lift, get_self, http_get, emit. simpl.
  unfold bind, lift. simpl. rewrite Hurl. unfold str_encode.
  rewrite Hascii, Hdoc. unfold player_list, rbind in Hl.
  destruct (getitem doc "response") as [r|]; [|done].
  destruct (getitem r "players") as [ps|]; [|done].
  rewrite Hl. simpl. unfold bind, set_summary_object, ret, raise. simpl.
  by destruct (truthy v).
Qed.

Lemma fetch_by_numeric_id_witness :
  let st := snd (construct Fixture.env VNone [] []) in
  fst (get_summary Fixture.env (VStr "76561197960287930") st)
  = Ok Fixture.robin /\
  log (snd (get_summary Fixture.env (VStr "76561197960287930") st))
  = [DbConnect; DbCommit; HttpGet (Fixture.key_url "76561197960287930")].
Proof.
  intros st.
  rewrite (fetch_by_numeric_id Fixture.env "76561197960287930" st
             Fixture.found_body (Fixture.players [Fixture.robin])
             Fixture.robin [] eq_refl eq_refl eq_refl eq_refl eq_refl).
  split; reflexivity.
Defined.

(** X8: the outcomes of a fetch.  A summary that [get_summary] returns
    is true and is the one held afterwards.  When [get_summary] raises,
    either the held summary is what it was, or the error is "Profile
    not found" and the false first player has already replaced it. *)
Theorem fetch_outcomes (env : Env) (sid : value) (st : state) :
  let out := get_summary env sid st in
  (forall v, fst out = Ok v ->
             truthy v = true /\ held (snd out) = Some v) /\
  (forall e, fst out = Raise e ->
             held (snd out) = held st \/
             (e = ProfileError "Profile not found" /\
              exists w, held (snd out) = Some w /\ truthy w = false)).
Proof.
  simpl. destruct (get_summary_held env sid st)
    as [(w & Hw & Hout)|[Hsame [e He]]]; rewrite ?Hout, ?He.
  - destruct (truthy w) eqn:Hy; split.
    + intros v [= <-]. done.
    + discriminate.
    + discriminate.
    + intros e [= <-]. right. eauto.
  - split; [discriminate|]. intros e' _. by left.
Qed.

(** X9: loading is offline, and all or nothing.  When the reader the
    flag selects decodes the document to [v], [load_summary_file]
    returns with [v] held and nothing else changed: no request, no cache
    access, the two URL attributes as they were.  When the reader
    raises, the error is passed on and nothing at all has changed. *)
Theorem load_is_offline
    (env : Env) (summary : string) (pickled : bool) (st : state) :
  load_summary_file env summary pickled st
  = match (if pickled then pickle_loads env summary
           else json_loads env summary) with
    | Ok v =>
        (Ok tt,
         State (Profile (_old_profile_url (self st)) (_profile_url (self st))
                        (Some v))
               (db st) (log st))
    | Raise e => (Raise e, st)
    end.
Proof.
  unfold load_summary_file, bind, lift, set_summary_object.
  destruct pickled; simpl; case_results; reflexivity.
Qed.

(** X10: a name with a byte above 127 is refused before anything
    happens: [str(sid).encode("ascii", "replace")] raises, no request is
    sent, the cache and the instance are as they were. *)
Theorem non_ascii_sid_raises_first
    (env : Env) (s : string) (st : state) :
  is_ascii s = false ->
  get_summary env (VStr s) st = (Raise UnicodeError, st) /\
  get_summary env (VUnicode s) st = (Raise UnicodeError, st).
Proof.
  intros Hs. unfold get_summary, bind, lift, str_encode. simpl.
  by rewrite Hs.
Qed.

Lemma non_ascii_sid_raises_first_witness :
  let st := snd (construct Fixture.env VNone [] []) in
  get_summary Fixture.env (VStr (String (ascii_of_nat 233) "ric")) st
  = (Raise UnicodeError, st).
Proof.
  intros st.
  exact (proj1 (non_ascii_sid_raises_first Fixture.env
                  (String (ascii_of_nat 233) "ric") st eq_refl)).
Defined.

(** X11: an answer of the summary endpoint with a byte above 127 cannot
    be fetched: [.read().encode("utf-8")] raises after the request, and
    the held summary is what it was. *)
Theorem non_ascii_body_raises
    (env : Env) (s : string) (st : state) (body : string) :
  str_isdigit s = true ->
  urlopen env (String.append (_profile_url (self st)) s) = Ok body ->
  is_ascii body = false ->
  get_summary env (VStr s) st
  = (Raise UnicodeError,
     State (self st) (db st)
       (log st ++ [HttpGet (String.append (_profile_url (self st)) s)])%list).
Proof.
  intros Hdigit Hurl Hascii.
  rewrite (get_summary_numeric env s st Hdigit).
  unfold request_summary, bind, lift, get_self, http_get, emit. simpl.
  unfold bind, lift. simpl. rewrite Hurl. unfold str_encode.
  by rewrite Hascii.
Qed.

Lemma non_ascii_body_raises_witness :
  let env := with_web Fixture.env
               (fun _ => Ok (String (ascii_of_nat 233) "")) in
  let st := snd (construct env VNone [] []) in
  fst (get_summary env (VStr "42") st) = Raise UnicodeError.
Proof.
  intros env st.
  rewrite (non_ascii_body_raises env "42" st (String (ascii_of_nat 233) "")
             eq_refl eq_refl eq_refl).
  reflexivity.
Defined.

Lemma digits_fuel_nonempty fuel n acc :
  acc <> "" -> digits_fuel fuel n acc <> "".
Proof.
  revert n acc. induction fuel as [|fuel IH]; intros n acc Hacc; simpl;
    [done|].
  destruct (n <? 10); [done|]. by apply IH.
Qed.

Lemma str_of_int_nonempty n : str_of_int n <> "".
Proof.
  unfold str_of_int, str_of_nonneg. destruct (n <? 0); [done|].
  simpl. destruct (n <? 10); [done|]. by apply digits_fuel_nonempty.
Qed.

Lemma request_summary_urls env id64 st :
  _profile_url (self (snd (request_summary env id64 st)))
  = _profile_url (self st) /\
  _old_profile_url (self (snd (request_summary env id64 st)))
  = _old_profile_url (self st).
Proof.
  unfold request_summary, bind, lift, get_self, http_get, emit.
  destruct (py_str env id64) as [tail|e]; simpl; [|done].
  unfold bind, lift, set_summary_object, raise, ret. simpl.
  case_results; try done.
  match goal with |- context [truthy ?v] => destruct (truthy v) end; done.
Qed.

Lemma get_summary_urls env sid st :
  _profile_url (self (snd (get_summary env sid st)))
  = _profile_url (self st) /\
  _old_profile_url (self (snd (get_summary env sid st)))
  = _old_profile_url (self st).
Proof.
  destruct (py_str env sid) as [s0|e] eqn:Hstr.
  2:{ unfold get_summary, bind, lift. by rewrite Hstr. }
  destruct (str_encode s0) as [s|e] eqn:Henc.
  2:{ unfold get_summary, bind, lift. by rewrite Hstr, Henc. }
  pose proof (get_id64_from_sid_self env (VStr s) st) as Hself.
  destruct (get_id64_from_sid env (VStr s) st) as [[id|e] st'] eqn:Hid.
  - rewrite (get_summary_resolved env sid s0 s st id st' Hstr Henc Hid).
    simpl in Hself. rewrite <- Hself. apply request_summary_urls.
  - unfold get_summary, bind, lift. rewrite Hstr, Henc, Hid.
    simpl in *. by rewrite Hself.
Qed.

(** X12: fetching a name twice.  Let the first resolution of a
    non-numeric name go to the legacy endpoint and return the text [id],
    the decimal notation of a non-zero integer.  Then the first
    [get_summary] sends two requests, the legacy one and the summary
    one for [id]; the second, on any network, sends only the summary
    request, to the same URL. *)
Theorem refetch_requests_the_same_url
    (env env' : Env) (s id : string) (n : Z) (st st0 : state) :
  str_isdigit s = false ->
  get_id64_from_sid env (VStr s) st = (Ok (VStr id), st0) ->
  sql_integer env id = Some n ->
  n <> 0 ->
  str_of_int n = id ->
  let first := get_summary env (VStr s) st in
  let second := get_summary env' (VStr s) (snd first) in
  requests (log (snd first))
  = (requests (log st)
       ++ [format0 0 (_old_profile_url (self st)) s;
           String.append (_profile_url (self st)) id])%list /\
  requests (log (snd second))
  = (requests (log (snd first))
       ++ [String.append (_profile_url (self st)) id])%list.
Proof.
  intros Hdigit Hfirst Hn Hn0 Hstr first second.
  destruct (resolved_by_request env s id st st0 Hdigit Hfirst)
    as (prof & n' & Hs & Hmiss & Hurl & Hid & Hn' & Hself & Hdb & Hreq).
  assert (n' = n) as -> by congruence.
  assert (str_encode s = Ok s) as Henc by (unfold str_encode; by rewrite Hs).
  assert (truthy (VStr id) = true) as Hy.
  { simpl. apply negb_true_iff, String.eqb_neq. rewrite <- Hstr.
    apply str_of_int_nonempty. }
  assert (first = request_summary env (VStr id) st0) as Hone.
  { unfold first.
    rewrite (get_summary_resolved env (VStr s) s s st (VStr id) st0
               eq_refl Henc Hfirst).
    by rewrite Hy. }
  destruct (request_summary_log env (VStr id) id st0 eq_refl)
    as [Hlog1 Hdb1].
  destruct (request_summary_urls env (VStr id) st0) as [Hurl1 Hold1].
  rewrite <- Hone in Hlog1, Hdb1, Hurl1, Hold1.
  rewrite Hself in Hlog1, Hurl1.
  assert (requests (log (snd first))
          = (requests (log st)
               ++ [format0 0 (_old_profile_url (self st)) s;
                   String.append (_profile_url (self st)) id])%list) as H1.
  { rewrite Hlog1, requests_app, Hreq. simpl. by rewrite <- app_assoc. }
  split; [exact H1|].
  assert (Cache.select_id64 s (db (snd first)) = Some n) as Hhit.
  { rewrite Hdb1, Hdb. by apply CacheFacts.select_store_miss. }
  pose proof (get_id64_from_sid_hit env' s n (snd first) Hdigit Hs Hhit)
    as Hsecond.
  unfold second.
  rewrite (get_summary_resolved env' (VStr s) s s (snd first) (VInt n) _
             eq_refl Henc Hsecond).
  replace (truthy (VInt n)) with true
    by (symmetry; simpl; apply negb_true_iff, Z.eqb_neq; done).
  match goal with
  | |- context [request_summary env' (VInt n) ?st1] =>
      destruct (request_summary_log env' (VInt n) id st1) as [Hlog2 _];
        [simpl; by rewrite Hstr|]
  end.
  rewrite Hlog2. simpl. rewrite !requests_app. simpl.
  rewrite !app_nil_r. by rewrite Hurl1.
Qed.

Lemma refetch_requests_the_same_url_witness :
  let st := snd (construct Fixture.env VNone [] []) in
  let first := get_summary Fixture.env (VStr "robin") st in
  let second := get_summary Fixture.env (VStr "robin") (snd first) in
  requests (log (snd second))
  = ["http://steamcommunity.com/id/robin?xml=1";
     Fixture.key_url "76561197960287930";
     Fixture.key_url "76561197960287930"].
Proof.
  intros st first second.
  destruct (refetch_requests_the_same_url Fixture.env Fixture.env "robin"
              "76561197960287930" 76561197960287930 st
              (snd (get_id64_from_sid Fixture.env (VStr "robin") st))
              eq_refl eq_refl eq_refl ltac:(discriminate) eq_refl)
    as [H1 H2].
  fold first in H1, H2. fold second in H2. rewrite H2, H1. reflexivity.
Defined.

(** ** Construction and the URL attributes *)

Lemma perform_urls env o st :
  _profile_url (self (snd (perform env o st))) = _profile_url (self st) /\
  _old_profile_url (self (snd (perform env o st)))
  = _old_profile_url (self st).
Proof.
  destruct o as [sid|summary pickled|sid|a]; simpl; unfold bind.
  - pose proof (get_summary_urls env sid st) as H.
    by destruct (get_summary env sid st) as [[v|e] st'].
  - assert (_profile_url (self (snd (load_summary_file env summary pickled st)))
            = _profile_url (self st) /\
            _old_profile_url
              (self (snd (load_summary_file env summary pickled st)))
            = _old_profile_url (self st)) as H.
    { unfold load_summary_file, bind, lift, set_summary_object.
      destruct pickled; simpl; case_results; done. }
    by destruct (load_summary_file env summary pickled st) as [[[]|e] st'].
  - pose proof (get_id64_from_sid_self env sid st) as H.
    destruct (get_id64_from_sid env sid st) as [[v|e] st']; simpl in *;
      by rewrite H.
  - unfold get_self, lift. done.
Qed.

Lemma construct_urls env sid t l :
  _profile_url (self (snd (construct env sid t l)))
  = summary_base (api_key env) /\
  _old_profile_url (self (snd (construct env sid t l))) = legacy_template.
Proof.
  unfold construct, __init__, _create_id64_db, bind, emit, ret. simpl.
  destruct (truthy sid); [|done].
  match goal with
  | |- context [get_summary env sid ?st0] =>
      pose proof (get_summary_urls env sid st0) as H;
      destruct (get_summary env sid st0) as [[v|e] st']
  end; exact H.
Qed.

(** X13: an instance keeps the URLs [__init__] gave it.  After
    [profile(sid)], whether it returned or raised, and after any history
    of calls on the instance, [_old_profile_url] is the legacy template
    and [_profile_url] is the summary URL carrying the API key. *)
Theorem url_attributes_are_fixed
    (env : Env) (sid : value) (t : Cache.table) (l : list event)
    (h : list (Env * op)) :
  let st := history h (snd (construct env sid t l)) in
  _old_profile_url (self st) = legacy_template /\
  _profile_url (self st) = summary_base (api_key env).
Proof.
  simpl. destruct (construct_urls env sid t l) as [Hnew Hold].
  revert Hnew Hold. generalize (snd (construct env sid t l)).
  induction h as [|[env' o] h IH]; intros st Hnew Hold; simpl; [done|].
  destruct (perform_urls env' o st) as [H1 H2].
  apply IH; congruence.
Qed.

(** X14: what [profile(sid)] leaves behind.  When the constructor
    returns, the instance holds a summary exactly when [sid] was true:
    [profile()], [profile("")] and [profile(0)] fetch nothing, send no
    request and leave the cache alone. *)
Theorem constructor_loads_iff_sid_is_true
    (env : Env) (sid : value) (t : Cache.table) (l : list event) :
  let out := construct env sid t l in
  (fst out = Ok tt -> (is_Some (held (snd out)) <-> truthy sid = true)) /\
  (truthy sid = false ->
   out = (Ok tt,
          State (Profile legacy_template (summary_base (api_key env)) None)
                t (l ++ [DbConnect; DbCommit])%list)).
Proof.
  unfold construct, __init__, _create_id64_db, bind, emit, ret. simpl.
  destruct (truthy sid) eqn:Hy.
  - split; [|discriminate]. intros Hok. split; [done|]. intros _.
    match goal with
    | Hok : context [get_summary env sid ?st0] |- _ =>
        destruct (get_summary_held env sid st0)
          as [(w & Hw & Hout)|[_ [e He]]];
        destruct (get_summary env sid st0) as [[v|e'] st']
    end; simpl in *; try discriminate.
    unfold held in *. rewrite Hw. eauto.
  - split.
    + intros _. simpl. split; [intros [v Hv]; discriminate | discriminate].
    + intros _. rewrite <- app_assoc. reflexivity.
Qed.

(** ** The accessors on a held summary *)

Lemma loaded_attr p v : _summary_object p = Some v -> summary_attr p = Ok v.
Proof. unfold summary_attr. by intros ->. Qed.

(** X15: the accessors that subscript the summary.  On a held
    dictionary, [get_id64], [get_persona], [get_profile_url],
    [get_avatar_url], [get_status], [get_visibility], [get_last_online],
    [get_current_game] and [get_location] raise [KeyError] when the key
    they subscript is missing; the first four return the stored value
    untouched when it is there. *)
Theorem subscript_accessors
    (env : Env) (p : profile) (d : gmap string value)
    (a : accessor) (k : string) :
  _summary_object p = Some (VDict d) ->
  required_key a = Some k ->
  (d !! k = None -> call env a p = Raise KeyError) /\
  (is_projection a = true ->
   forall v, d !! k = Some v -> call env a p = Ok (RValue v)).
Proof.
  intros Hso Hk. pose proof (loaded_attr p _ Hso) as Hattr.
  destruct a; simpl in Hk; try discriminate; injection Hk as <-.
  all: split; [intros Hnone | intros Hproj; try discriminate; intros v Hv].
  all: unfold call, get_id64, get_persona, get_profile_url, get_avatar_url,
         get_status, get_visibility, get_last_online, get_current_game,
         get_location, get_visibility, rbind;
       rewrite ?Hattr; simpl; rewrite ?Hnone, ?Hv; reflexivity.
Qed.

Lemma subscript_accessors_witness :
  call Fixture.env GetProfileUrl (Fixture.holding Fixture.robin)
  = Raise KeyError /\
  call Fixture.env GetPersona (Fixture.holding Fixture.robin)
  = Ok (RValue (VUnicode "Robin")).
Proof.
  split.
  - refine (proj1 (subscript_accessors Fixture.env
                     (Fixture.holding Fixture.robin) _ GetProfileUrl
                     "profileurl" _ _) _); reflexivity.
  - refine (proj2 (subscript_accessors Fixture.env
                     (Fixture.holding Fixture.robin) _ GetPersona
                     "personaname" _ _) _ _ _); reflexivity.
Defined.

(** X16: the accessors that read with [.get].  On a held dictionary,
    [is_configured] and [is_comment_enabled] answer [False], and
    [get_real_name], [get_primary_group] and [get_creation_date] answer
    [None], when their key is missing; the first four return the stored
    value when it is there, and [get_creation_date] also answers [None]
    for a stored value that is false, such as 0. *)
Theorem get_accessors_default
    (env : Env) (p : profile) (d : gmap string value)
    (a : accessor) (k : string) (dflt : value) :
  _summary_object p = Some (VDict d) ->
  optional_key a = Some (k, dflt) ->
  (d !! k = None -> call env a p = Ok (RValue dflt)) /\
  (forall v, d !! k = Some v ->
     call env a p =
       match a with
       | GetCreationDate =>
           if truthy v
           then match py_localtime env v with
                | Ok t => Ok (RTime t)
                | Raise e => Raise e
                end
           else Ok (RValue VNone)
       | _ => Ok (RValue v)
       end).
Proof.
  intros Hso Hk. pose proof (loaded_attr p _ Hso) as Hattr.
  destruct a; simpl in Hk; try discriminate; injection Hk as <- <-.
  all: split; [intros Hnone | intros v Hv].
  all: unfold call, is_configured, is_comment_enabled, get_real_name,
         get_primary_group, get_creation_date, rbind;
       rewrite ?Hattr; simpl; rewrite ?Hnone, ?Hv; simpl; try reflexivity.
  destruct (truthy v); [|reflexivity].
  by destruct (py_localtime env v).
Qed.

Lemma get_accessors_default_witness :
  call Fixture.env GetRealName (Fixture.holding Fixture.robin)
  = Ok (RValue VNone) /\
  call Fixture.env IsConfigured (Fixture.holding Fixture.robin)
  = Ok (RValue (VBool false)).
Proof.
  split.
  - refine (proj1 (get_accessors_default Fixture.env
                     (Fixture.holding Fixture.robin) _ GetRealName
                     "realname" VNone _ _) _); reflexivity.
  - refine (proj1 (get_accessors_default Fixture.env
                     (Fixture.holding Fixture.robin) _ IsConfigured
                     "profilestate" (VBool false) _ _) _); reflexivity.
Defined.

(** X17: a held summary that is not a dictionary.  [load_summary_file]
    accepts any document; when what it loaded is not a dictionary,
    [get_summary_object] returns it and every other accessor raises:
    [AttributeError] for the five that call [.get], [TypeError] for the
    rest. *)
Theorem non_dict_summary_accessors
    (env : Env) (p : profile) (v : value) (a : accessor) :
  _summary_object p = Some v ->
  is_dict v = false ->
  call env a p =
    match a with
    | GetSummaryObject => Ok (RValue v)
    | _ => Raise (match optional_key a with
                  | Some _ => AttributeError
                  | None => TypeError
                  end)
    end.
Proof.
  intros Hso Hdict. pose proof (loaded_attr p _ Hso) as Hattr.
  destruct a; simpl;
    unfold get_summary_object, get_id64, get_persona, get_profile_url,
      get_avatar_url, get_status, get_visibility, is_configured,
      get_last_online, is_comment_enabled, get_real_name,
      get_primary_group, get_creation_date, get_current_game,
      get_location, get_visibility, rbind;
    rewrite ?Hattr; destruct v; try discriminate; reflexivity.
Qed.

Lemma non_dict_summary_accessors_witness :
  call Fixture.env GetPersona
    (Profile "" "" (Some (VList [Fixture.robin]))) = Raise TypeError.
Proof.
  exact (non_dict_summary_accessors Fixture.env
           (Profile "" "" (Some (VList [Fixture.robin])))
           (VList [Fixture.robin]) GetPersona eq_refl eq_refl).
Defined.

Lemma copy_key_dict p d key name ret :
  _summary_object p = Some (VDict d) ->
  copy_key p key name ret
  = Ok (match d !! key with
        | Some x => <[name := x]> ret
        | None => ret
        end).
Proof.
  intros Hso. unfold copy_key, rbind. rewrite (loaded_attr p _ Hso). simpl.
  destruct (d !! key) as [x|] eqn:E; simpl; done.
Qed.

(** X18: the game and location of a public profile.  When the
    visibility reported for a held dictionary is "public",
    [get_current_game] returns a dictionary whose keys [id], [server]
    and [extra] carry [gameid], [gameserverip] and [gameextrainfo], each
    present exactly when the summary has it, and [get_location] one
    whose keys [country] and [state] carry [loccountrycode] and
    [locstatecode]; neither has any other key. *)
Theorem public_game_and_location
    (p : profile) (d : gmap string value) :
  _summary_object p = Some (VDict d) ->
  get_visibility p = Ok (VStr "public") \/
  get_visibility p = Ok (VUnicode "public") ->
  exists game loc : gmap string value,
    get_current_game p = Ok (VDict game) /\
    get_location p = Ok (VDict loc) /\
    game !! "id" = d !! "gameid" /\
    game !! "server" = d !! "gameserverip" /\
    game !! "extra" = d !! "gameextrainfo" /\
    (forall k, k <> "id" -> k <> "server" -> k <> "extra" ->
               game !! k = None) /\
    loc !! "country" = d !! "loccountrycode" /\
    loc !! "state" = d !! "locstatecode" /\
    (forall k, k <> "country" -> k <> "state" -> loc !! k = None).
Proof.
  intros Hso Hvis.
  assert (exists vis, get_visibility p = Ok vis /\ eq_str vis "public" = true)
    as (vis & Hv & Hpub).
  { destruct Hvis as [H|H]; eexists; (split; [exact H | reflexivity]). }
  unfold get_current_game, get_location. rewrite Hv. simpl. rewrite Hpub.
  rewrite !(copy_key_dict p d _ _ _ Hso). simpl.
  rewrite !(copy_key_dict p d _ _ _ Hso). simpl.
  rewrite !(copy_key_dict p d _ _ _ Hso). simpl.
  eexists _, _. split; [reflexivity|]. split; [reflexivity|].
  destruct (d !! "gameid"), (d !! "gameserverip"), (d !! "gameextrainfo"),
    (d !! "loccountrycode"), (d !! "locstatecode").
  all: repeat split; try (intros k; intros);
    repeat (rewrite lookup_insert_eq || rewrite lookup_insert_ne by done
            || rewrite lookup_empty);
    reflexivity.
Qed.

Lemma public_game_and_location_witness :
  get_current_game (Fixture.holding Fixture.robin)
  = Ok (VDict {[ "id" := VUnicode "440" ]}) /\
  get_location (Fixture.holding Fixture.robin)
  = Ok (VDict {[ "country" := VUnicode "US" ]}).
Proof.
  destruct (public_game_and_location (Fixture.holding Fixture.robin) _
              eq_refl (or_introl eq_refl))
    as (game & loc & Hgame & Hloc & _).
  split.
  - rewrite Hgame. vm_compute in Hgame. injection Hgame as <-.
    vm_compute. reflexivity.
  - rewrite Hloc. vm_compute in Hloc. injection Hloc as <-.
    vm_compute. reflexivity.
Defined.

(** ** Malformed answers of the legacy endpoint *)

(** X19: an answer whose text between the tags is not an integer.
    When SQLite cannot read the extracted [id] as an integer (an empty
    element, say), the INSERT raises [IntegrityError]: the call does not
    return [None], nothing is written, and the request has been
    sent. *)
Theorem non_integer_id_raises
    (env : Env) (s : string) (st : state) (pre id post : string) :
  str_isdigit s = false ->
  is_ascii s = true ->
  Cache.select_id64 s (db st) = None ->
  urlopen env (format0 0 (_old_profile_url (self st)) s)
  = Ok (legacy_document pre id post) ->
  find (String.append pre open_tag) open_tag = len pre ->
  find (String.append pre
          (String.append open_tag (String.append id close_tag))) close_tag
  = len pre + 11 + len id ->
  is_ascii id = true ->
  sql_integer env id = None ->
  get_id64_from_sid env (VStr s) st
  = (Raise IntegrityError,
     State (self st) (db st)
       (log st ++ [DbConnect; DbSelect s;
                   HttpGet (format0 0 (_old_profile_url (self st)) s);
                   DbInsert id])%list).
Proof.
  intros Hdigit Hs Hmiss Hurl Hopen Hclose Hid Hn.
  rewrite (get_id64_from_sid_miss env s st _ Hdigit Hs Hmiss Hurl).
  destruct (slice_between_tags pre id post Hopen Hclose) as (H1 & H2 & H3).
  simpl in H1, H2, H3. rewrite H3, H1.
  pose proof (len_nonneg pre).
  replace (len pre =? -1) with false by (symmetry; apply Z.eqb_neq; lia).
  simpl. unfold bind, cache_store, bind, lift, emit, bind_param, raise.
  rewrite Hid. simpl. rewrite Hn. simpl. rewrite <- !app_assoc. reflexivity.
Qed.

Lemma non_integer_id_raises_witness :
  let env := with_web Fixture.env
               (fun _ => Ok "<profile><steamID64></steamID64></profile>") in
  let st := snd (construct env VNone [] []) in
  fst (get_id64_from_sid env (VStr "robin") st) = Raise IntegrityError /\
  db (snd (get_id64_from_sid env (VStr "robin") st)) = [].
Proof.
  intros env st.
  rewrite (non_integer_id_raises env "robin" st "<profile>" "" "</profile>"
             eq_refl eq_refl eq_refl eq_refl eq_refl eq_refl eq_refl eq_refl).
  split; reflexivity.
Defined.

Lemma slice_without_closing_tag pre rest :
  find (String.append pre open_tag) open_tag = len pre ->
  let prof := String.append pre (String.append open_tag rest) in
  find prof close_tag = -1 ->
  find prof open_tag = len pre /\
  slice prof (find prof open_tag + 11) (find prof close_tag)
  = String.substring 0 (String.length rest - 1) rest.
Proof.
  intros Hopen prof Hclose.
  pose proof (len_nonneg pre) as Hpre. pose proof (len_nonneg rest) as Hrest.
  assert (find prof open_tag = len pre) as H1.
  { unfold prof, find. rewrite <- append_assoc.
    apply find_from_append_l; [lia | exact Hopen | lia]. }
  split; [exact H1|]. rewrite H1, Hclose. unfold slice, clamp.
  assert (len prof = len pre + 11 + len rest) as Hlen.
  { unfold prof. rewrite !len_append. change (len open_tag) with 11. lia. }
  rewrite Hlen.
  replace (len pre + 11 <? 0) with false by (symmetry; apply Z.ltb_ge; lia).
  change (-1 <? 0) with true. cbv iota.
  rewrite !Z.min_l, !Z.max_r by lia.
  replace (Z.to_nat (len pre + 11))
    with (String.length (String.append pre open_tag))
    by (rewrite length_append; unfold len; simpl; lia).
  replace (Z.to_nat (-1 + (len pre + 11 + len rest) - (len pre + 11)))
    with (String.length rest - 1)%nat by (unfold len; lia).
  unfold prof. rewrite <- append_assoc. apply substring_append_skip.
Qed.

(** X20: an answer with an opening tag and no closing tag.  The slice
    of line 61 then ends at index [-1]: the text taken for the id is
    everything after [<steamID64>] except the last character of the
    document, and that text is what the call goes on to store and
    return. *)
Theorem missing_closing_tag_takes_the_rest
    (env : Env) (s : string) (st : state) (pre rest : string) :
  str_isdigit s = false ->
  is_ascii s = true ->
  Cache.select_id64 s (db st) = None ->
  urlopen env (format0 0 (_old_profile_url (self st)) s)
  = Ok (String.append pre (String.append open_tag rest)) ->
  find (String.append pre open_tag) open_tag = len pre ->
  find (String.append pre (String.append open_tag rest)) close_tag = -1 ->
  let id := String.substring 0 (String.length rest - 1) rest in
  get_id64_from_sid env (VStr s) st
  = (cache_store env (VStr s) id ;;; ret (VStr id))
      (State (self st) (db st)
         (log st ++ [DbConnect; DbSelect s;
                     HttpGet (format0 0 (_old_profile_url (self st)) s)])%list).
Proof.
  intros Hdigit Hs Hmiss Hurl Hopen Hclose id.
  rewrite (get_id64_from_sid_miss env s st _ Hdigit Hs Hmiss Hurl).
  destruct (slice_without_closing_tag pre rest Hopen Hclose) as [H1 H2].
  rewrite H2, H1. pose proof (len_nonneg pre).
  replace (len pre =? -1) with false by (symmetry; apply Z.eqb_neq; lia).
  reflexivity.
Qed.

Lemma missing_closing_tag_takes_the_rest_witness :
  let env := with_web Fixture.env
               (fun _ => Ok "<profile><steamID64>76561197960287930</prof") in
  let st := snd (construct env VNone [] []) in
  fst (get_id64_from_sid env (VStr "robin") st) = Raise IntegrityError /\
  In (DbInsert "76561197960287930</pro")
     (log (snd (get_id64_from_sid env (VStr "robin") st))).
Proof.
  intros env st.
  rewrite (missing_closing_tag_takes_the_rest env "robin" st "<profile>"
             "76561197960287930</prof" eq_refl eq_refl eq_refl eq_refl
             eq_refl eq_refl).
  split; [reflexivity|]. vm_compute. tauto.
Defined.
